(** * Governance policy validator: [scripts/validate_policy.py]

    A shallow embedding of [RegoWASMValidator.validate_input],
    [_check_rules] and [_valid_ticket], together with the Python built-ins
    they rely on, and the properties of the rule-evaluation engine.

    The documents handled by the validator come out of [json.load]; they are
    dynamically typed, and the code reads them with [dict.get], truth tests,
    [==], [<], [>], [in], [len], indexing and f-strings.  Each of these is
    modelled on JSON values with the exceptions Python raises, so that the
    [try]/[except] of [validate_input] has something to catch. *)

From Stdlib Require Import String Ascii List ZArith Bool Arith Lia.
From Stdlib Require Import DecimalString.
Import ListNotations.

Local Open Scope string_scope.
Local Open Scope Z_scope.

Set Warnings "-register-all".

(** ** JSON values as Python objects *)

(** What [json.load] returns: [None], [bool], [int], [str], [list] and
    [dict] with [str] keys in insertion order.  JSON numbers are the integers
    of the data model; a [str] is a [string] with one [ascii] per character
    (code points below 256).  A [dict] is an association list whose keys are
    pairwise distinct, looked up from the front. *)
Inductive value : Type :=
| VNone
| VBool (b : bool)
| VInt (n : Z)
| VStr (s : string)
| VList (l : list value)
| VDict (d : list (string * value)).

Inductive exn_class : Type :=
| AttributeError
| TypeError
| KeyError
| IndexError
| OverflowError
| ReError.

(** A raised exception: its class and [str(e)].  The texts are CPython 3.11's;
    the class alone decides which handler catches it. *)
Record exn : Type := Exn { exn_cls : exn_class; exn_msg : string }.

Inductive result (A : Type) : Type :=
| Ok (a : A)
| Raise (e : exn).

Arguments Ok {A} a.
Arguments Raise {A} e.

Definition bind {A B : Type} (m : result A) (k : A -> result B) : result B :=
  match m with
  | Ok a => k a
  | Raise e => Raise e
  end.

Notation "x <- m ;; k" := (bind m (fun x => k))
  (at level 61, m at next level, right associativity).

Definition exn_class_eqb (a b : exn_class) : bool :=
  match a, b with
  | AttributeError, AttributeError | TypeError, TypeError
  | KeyError, KeyError | IndexError, IndexError
  | OverflowError, OverflowError | ReError, ReError => true
  | _, _ => false
  end.

(** [try: m except cls: h] *)
Definition try_except {A : Type} (m : result A) (cls : exn_class) (h : result A)
  : result A :=
  match m with
  | Ok a => Ok a
  | Raise e => if exn_class_eqb (exn_cls e) cls then h else Raise e
  end.

(** ** Built-ins *)

Definition type_name (v : value) : string :=
  match v with
  | VNone => "NoneType"
  | VBool _ => "bool"
  | VInt _ => "int"
  | VStr _ => "str"
  | VList _ => "list"
  | VDict _ => "dict"
  end.

(** Truth value of an object, as tested by [if], [and], [not]. *)
Definition truthy (v : value) : bool :=
  match v with
  | VNone => false
  | VBool b => b
  | VInt n => negb (n =? 0)
  | VStr s => negb (String.eqb s "")
  | VList l => match l with [] => false | _ => true end
  | VDict d => match d with [] => false | _ => true end
  end.

(** [bool] is a subclass of [int]: the numeric reading of a value. *)
Definition as_int (v : value) : option Z :=
  match v with
  | VBool b => Some (if b then 1 else 0)
  | VInt n => Some n
  | _ => None
  end.

Fixpoint dict_get (d : list (string * value)) (k : string) : option value :=
  match d with
  | [] => None
  | (k', v) :: d' => if String.eqb k k' then Some v else dict_get d' k
  end.

(** [a == b]; never raises on JSON values. *)
Fixpoint py_eq (a b : value) : bool :=
  match a, b with
  | VNone, VNone => true
  | VBool x, VBool y => Bool.eqb x y
  | VBool x, VInt n => (if x then 1 else 0) =? n
  | VInt n, VBool y => n =? (if y then 1 else 0)
  | VInt n, VInt m => n =? m
  | VStr s, VStr t => String.eqb s t
  | VList l, VList m =>
      (fix go (l m : list value) : bool :=
         match l, m with
         | [], [] => true
         | x :: l', y :: m' => py_eq x y && go l' m'
         | _, _ => false
         end) l m
  | VDict d, VDict e =>
      (length d =? length e)%nat &&
      (fix go (d : list (string * value)) : bool :=
         match d with
         | [] => true
         | (k, v) :: d' =>
             match dict_get e k with
             | Some w => py_eq v w && go d'
             | None => false
             end
         end) d
  | _, _ => false
  end.

(** The rich comparisons [a < b] and [a > b]: [op] is the operator's text and
    [test] reads the three-way outcome. *)
Fixpoint py_compare (op : string) (test : comparison -> bool) (a b : value)
  : result bool :=
  let unsupported :=
    Raise (Exn TypeError
             ("'" ++ op ++ "' not supported between instances of '"
                  ++ type_name a ++ "' and '" ++ type_name b ++ "'")) in
  match a, b with
  | VStr s, VStr t => Ok (test (String.compare s t))
  | VList l, VList m =>
      (fix go (l m : list value) : result bool :=
         match l, m with
         | [], [] => Ok (test Eq)
         | [], _ :: _ => Ok (test Lt)
         | _ :: _, [] => Ok (test Gt)
         | x :: l', y :: m' =>
             if py_eq x y then go l' m' else py_compare op test x y
         end) l m
  | _, _ =>
      match as_int a, as_int b with
      | Some x, Some y => Ok (test (x ?= y))
      | _, _ => unsupported
      end
  end.

Definition py_lt : value -> value -> result bool :=
  py_compare "<" (fun c => match c with Lt => true | _ => false end).

Definition py_gt : value -> value -> result bool :=
  py_compare ">" (fun c => match c with Gt => true | _ => false end).

(** [len(v)] *)
Definition py_len (v : value) : result Z :=
  match v with
  | VStr s => Ok (Z.of_nat (String.length s))
  | VList l => Ok (Z.of_nat (List.length l))
  | VDict d => Ok (Z.of_nat (List.length d))
  | _ => Raise (Exn TypeError
                  ("object of type '" ++ type_name v ++ "' has no len()"))
  end.

(** [o.get(k, default)]: only a [dict] has the method. *)
Definition py_get (o : value) (k : string) (default : value) : result value :=
  match o with
  | VDict d => Ok (match dict_get d k with Some v => v | None => default end)
  | _ => Raise (Exn AttributeError
                  ("'" ++ type_name o ++ "' object has no attribute 'get'"))
  end.

(** *** [str] and [repr] *)

Definition dquote : ascii := "034"%char.
Definition squote : ascii := "039"%char.
Definition backslash : ascii := "092"%char.

Definition hex_digit (n : nat) : ascii :=
  nth n ["0"; "1"; "2"; "3"; "4"; "5"; "6"; "7";
         "8"; "9"; "a"; "b"; "c"; "d"; "e"; "f"]%char "0"%char.

Fixpoint contains_char (c : ascii) (s : string) : bool :=
  match s with
  | EmptyString => false
  | String c' s' => Ascii.eqb c c' || contains_char c s'
  end.

(** One character of [repr(s)] inside the quotes [q]. *)
Definition repr_char (q c : ascii) : string :=
  let n := nat_of_ascii c in
  if Ascii.eqb c q || Ascii.eqb c backslash then String backslash (String c "")
  else if (n =? 9)%nat then String backslash "t"
  else if (n =? 10)%nat then String backslash "n"
  else if (n =? 13)%nat then String backslash "r"
  else if (n <? 32)%nat || (n =? 127)%nat
          || ((128 <=? n)%nat && (n <=? 160)%nat) || (n =? 173)%nat
       then String backslash
              (String "x" (String (hex_digit (n / 16))
                             (String (hex_digit (n mod 16)) "")))
  else String c "".

Fixpoint repr_chars (q : ascii) (s : string) : string :=
  match s with
  | EmptyString => ""
  | String c s' => repr_char q c ++ repr_chars q s'
  end.

(** [repr] of a [str]: single quotes unless the text has a single quote and no
    double quote. *)
Definition repr_str (s : string) : string :=
  let q := if contains_char squote s && negb (contains_char dquote s)
           then dquote else squote in
  String q (repr_chars q s ++ String q "").

Definition str_of_Z (n : Z) : string := NilZero.string_of_int (Z.to_int n).

Fixpoint py_repr (v : value) : string :=
  match v with
  | VNone => "None"
  | VBool b => if b then "True" else "False"
  | VInt n => str_of_Z n
  | VStr s => repr_str s
  | VList l => "[" ++ String.concat ", " (map py_repr l) ++ "]"
  | VDict d =>
      "{" ++ String.concat ", "
               (map (fun kv : string * value =>
                       let (k, w) := kv in repr_str k ++ ": " ++ py_repr w) d)
          ++ "}"
  end.

(** [str(v)], which is also what [{v}] in an f-string inserts. *)
Definition py_str (v : value) : string :=
  match v with
  | VStr s => s
  | _ => py_repr v
  end.

(** *** Membership and indexing *)

Definition hashable (v : value) : bool :=
  match v with
  | VList _ | VDict _ => false
  | _ => true
  end.

Definition unhashable {A : Type} (v : value) : result A :=
  Raise (Exn TypeError ("unhashable type: '" ++ type_name v ++ "'")).

Fixpoint is_substring (t s : string) : bool :=
  String.prefix t s
  || match s with
     | EmptyString => false
     | String _ s' => is_substring t s'
     end.

(** [x in c] *)
Definition py_in (x c : value) : result bool :=
  match c with
  | VDict d =>
      if hashable x then
        Ok (match x with
            | VStr k => match dict_get d k with Some _ => true | None => false end
            | _ => false
            end)
      else unhashable x
  | VList l => Ok (existsb (fun e => py_eq e x) l)
  | VStr s =>
      match x with
      | VStr t => Ok (is_substring t s)
      | _ => Raise (Exn TypeError
                      ("'in <string>' requires string as left operand, not "
                         ++ type_name x))
      end
  | _ => Raise (Exn TypeError
                  ("argument of type '" ++ type_name c ++ "' is not iterable"))
  end.

(** Position [i] of a sequence of length [n], counted from the end when
    negative. *)
Definition seq_index (i : Z) (n : nat) : option nat :=
  let j := if i <? 0 then i + Z.of_nat n else i in
  if (0 <=? j) && (j <? Z.of_nat n) then Some (Z.to_nat j) else None.

(** [c[k]] *)
Definition py_getitem (c k : value) : result value :=
  match c with
  | VDict d =>
      if hashable k then
        match (match k with VStr s => dict_get d s | _ => None end) with
        | Some v => Ok v
        | None => Raise (Exn KeyError (py_repr k))
        end
      else unhashable k
  | VList l =>
      match as_int k with
      | Some i =>
          match seq_index i (List.length l) with
          | Some j => Ok (nth j l VNone)
          | None => Raise (Exn IndexError "list index out of range")
          end
      | None => Raise (Exn TypeError
                         ("list indices must be integers or slices, not "
                            ++ type_name k))
      end
  | VStr s =>
      match as_int k with
      | Some i =>
          match seq_index i (String.length s) with
          | Some j => Ok (VStr (String.substring j 1 s))
          | None => Raise (Exn IndexError "string index out of range")
          end
      | None => Raise (Exn TypeError
                         ("string indices must be integers, not '"
                            ++ type_name k ++ "'"))
      end
  | _ => Raise (Exn TypeError
                  ("'" ++ type_name c ++ "' object is not subscriptable"))
  end.

(** ** The [re] module

    [_valid_ticket] imports Python's regular-expression library, which is the
    runtime's and not the repository's: it is an interface here.  [re_compile]
    is [re.compile] on a pattern text and may raise; [re_span p s i j] says
    that [p], looking at the whole of [s], can match exactly from position [i]
    to position [j].  The three ways Python applies a compiled pattern are
    defined from it. *)
Class ReModule : Type := {
  Pattern : Type;
  re_compile : string -> result Pattern;
  re_span : Pattern -> string -> nat -> nat -> bool
}.

Section Re.
Context {RE : ReModule}.

Definition positions (s : string) : list nat := seq 0 (S (String.length s)).

(** [p.match(s) is not None]: a match that starts at position 0. *)
Definition pattern_match (p : Pattern) (s : string) : bool :=
  existsb (re_span p s 0) (positions s).

(** [p.fullmatch(s) is not None]: a match of the whole of [s]. *)
Definition pattern_fullmatch (p : Pattern) (s : string) : bool :=
  re_span p s 0 (String.length s).

(** [p.search(s) is not None]: a match that starts anywhere. *)
Definition pattern_search (p : Pattern) (s : string) : bool :=
  existsb (fun i => existsb (re_span p s i) (positions s)) (positions s).

(** [bool(re.match(pattern, string))]: the pattern is compiled first, then
    applied to the subject. *)
Definition re_match (pattern string : value) : result bool :=
  match pattern with
  | VStr pat =>
      p <- re_compile pat ;;
      match string with
      | VStr s => Ok (pattern_match p s)
      | _ => Raise (Exn TypeError
                      ("expected string or bytes-like object, got '"
                         ++ type_name string ++ "'"))
      end
  | VList _ | VDict _ => unhashable pattern
  | _ => Raise (Exn TypeError
                  "first argument must be string or compiled pattern")
  end.
End Re.

(** ** The validator *)

(** The dictionary [validate_input] returns: the keys ["allowed"],
    ["violations"], ["input"], and ["timestamp"] or ["error"]. *)
Record ValidationResult : Type := {
  allowed : bool;
  violations : list string;
  input : value;
  timestamp : option string;
  error : option bool
}.

(** Conditions of [if] statements: evaluation may raise, and [and] does not
    evaluate its right operand when the left one is false. *)
Definition truth (m : result value) : result bool := v <- m ;; Ok (truthy v).
Definition not_ (m : result bool) : result bool := b <- m ;; Ok (negb b).
Definition and_ (a b : result bool) : result bool :=
  x <- a ;; if x then b else Ok false.
Definition eq_ (m : result value) (c : value) : result bool :=
  v <- m ;; Ok (py_eq v c).

(** [if c: violations.append(msg)] *)
Definition append_if (c : bool) (violations : list string) (msg : string)
  : list string :=
  if c then violations ++ [msg] else violations.

Section Validator.
Context {RE : ReModule}.

(** [RegoWASMValidator._valid_ticket] *)
Definition _valid_ticket (ticket_id pattern : value) : result bool :=
  if negb (truthy ticket_id) then Ok false
  else if negb (truthy pattern) then Ok true
  else try_except (re_match pattern ticket_id) ReError (Ok false).

(** [RegoWASMValidator._check_rules] *)
Definition _check_rules (input_data rules : value) : result (list string) :=
  let violations := [] in
  (* Rule #1: Controlled, tested, segregated *)
  c <- and_ (truth (py_get rules "tests_passed" VNone))
            (not_ (truth (checks <- py_get input_data "checks" (VDict []) ;;
                          py_get checks "tests" VNone))) ;;
  let violations :=
    append_if c violations "Rule#1: tests required but not passed" in
  c <- and_ (truth (py_get rules "artifact_signed" VNone))
            (not_ (truth (py_get input_data "artifact_signed" VNone))) ;;
  let violations :=
    append_if c violations "Rule#1: artifact must be signed" in
  c <- and_ (truth (py_get rules "release_controlled" VNone))
            (not_ (truth (py_get input_data "release_controlled" VNone))) ;;
  let violations :=
    append_if c violations "Rule#1: release must be controlled" in
  c <- truth (py_get rules "require_reviewers" VNone) ;;
  violations <-
    (if c then
       min_reviewers <- py_get rules "min_reviewers" (VInt 0) ;;
       approvers <- (a <- py_get input_data "approvers" (VList []) ;;
                     py_len a) ;;
       c <- py_lt (VInt approvers) min_reviewers ;;
       Ok (append_if c violations
             ("Rule#1: at least " ++ py_str min_reviewers
                ++ " approvers required (got " ++ str_of_Z approvers ++ ")"))
     else Ok violations) ;;
  (* Rule #2: Production separation *)
  c <- and_ (eq_ (py_get rules "shared_infra_except_core" VNone) (VBool false))
            (eq_ (py_get input_data "shared_infra" VNone) (VBool true)) ;;
  let violations :=
    append_if c violations
      "Rule#2: production cannot run on shared infra (except core)" in
  (* Rule #3: Documented changes *)
  c <- and_ (truth (py_get rules "change_recorded" VNone))
            (not_ (truth (py_get input_data "change_recorded" VNone))) ;;
  let violations :=
    append_if c violations "Rule#3: change must be recorded" in
  c <- truth (py_get rules "require_ticket" VNone) ;;
  violations <-
    (if c then
       ticket_id <- py_get input_data "ticket_id" (VStr "") ;;
       ticket_pattern <- py_get rules "ticket_pattern" (VStr "") ;;
       c <- not_ (_valid_ticket ticket_id ticket_pattern) ;;
       Ok (append_if c violations
             ("Rule#3: ticket id invalid/missing (pattern "
                ++ py_str ticket_pattern ++ ")"))
     else Ok violations) ;;
  (* Rule #4: Deployment windows and timers *)
  c <- and_ (truth (py_get rules "deployment_date_agreed" VNone))
            (not_ (truth (py_get input_data "deployment_date_agreed" VNone))) ;;
  let violations :=
    append_if c violations "Rule#4: deployment date not agreed" in
  wait_timer <- py_get rules "wait_timer_seconds" (VInt 0) ;;
  c <- py_gt wait_timer (VInt 0) ;;
  violations <-
    (if c then
       elapsed <- py_get input_data "wait_elapsed_seconds" (VInt 0) ;;
       c <- py_lt elapsed wait_timer ;;
       Ok (append_if c violations
             ("Rule#4: wait timer not elapsed (" ++ py_str elapsed
                ++ " < " ++ py_str wait_timer ++ ")"))
     else Ok violations) ;;
  (* Rule #5: Sign-off and emergency *)
  c <- and_ (truth (py_get rules "signed_off" VNone))
            (and_ (not_ (truth (py_get input_data "is_emergency" VNone)))
                  (not_ (truth (py_get input_data "signed_off" VNone)))) ;;
  let violations :=
    append_if c violations "Rule#5: missing required sign-off" in
  c <- and_ (truth (py_get input_data "is_emergency" VNone))
            (eq_ (py_get rules "retrospective_signoff" VNone) (VBool false)) ;;
  let violations :=
    append_if c violations
      "Rule#5: emergency path requires retrospective_signoff enabled" in
  (* Rule #6: Change control *)
  c <- and_ (truth (py_get rules "components_unchanged" VNone))
            (truth (py_get input_data "components_changed_after_signoff"
                      VNone)) ;;
  let violations :=
    append_if c violations
      "Rule#6: components changed after signoff; require new signoff" in
  (* Rule #7: Rollback instructions *)
  c <- and_ (truth (py_get rules "rollback_instructions_present" VNone))
            (not_ (truth (py_get input_data "rollback_instructions_present"
                            VNone))) ;;
  let violations :=
    append_if c violations "Rule#7: rollback instructions must be present" in
  (* Guardrails *)
  max_deployments <- py_get rules "max_deployments_per_day" (VInt 0) ;;
  c <- py_gt max_deployments (VInt 0) ;;
  violations <-
    (if c then
       deployments_today <- py_get input_data "deployments_today" (VInt 0) ;;
       c <- py_gt deployments_today max_deployments ;;
       Ok (append_if c violations
             ("Max deployments per day exceeded (" ++ py_str deployments_today
                ++ " > " ++ py_str max_deployments ++ ")"))
     else Ok violations) ;;
  Ok violations.

(** The [try] block of [validate_input]; [check_rules] is the method
    reached through [self._check_rules], and [data] is [self.data]. *)
Definition validate_try
    (check_rules : value -> value -> result (list string))
    (data input_data : value) : result ValidationResult :=
  let result := {| allowed := false;
                   violations := [];
                   input := input_data;
                   timestamp := Some "2025-01-18T16:00:00Z";
                   error := None |} in
  env <- py_get input_data "env" (VStr "") ;;
  policy <- py_get data "policy" (VDict []) ;;
  environments <- py_get policy "environments" (VDict []) ;;
  known <- py_in env environments ;;
  if known then
    p <- py_getitem data (VStr "policy") ;;
    es <- py_getitem p (VStr "environments") ;;
    e <- py_getitem es env ;;
    rules <- py_getitem e (VStr "rules") ;;
    vs <- check_rules input_data rules ;;
    Ok {| allowed := (Z.of_nat (List.length vs) =? 0);
          violations := vs;
          input := input result;
          timestamp := timestamp result;
          error := error result |}
  else
    Ok {| allowed := allowed result;
          violations := ["Unknown environment: " ++ py_str env];
          input := input result;
          timestamp := timestamp result;
          error := error result |}.

(** [validate_input] with its [except Exception] handler. *)
Definition validate_input_with
    (check_rules : value -> value -> result (list string))
    (data input_data : value) : ValidationResult :=
  match validate_try check_rules data input_data with
  | Ok result => result
  | Raise e =>
      {| allowed := false;
         violations := ["Validation error: " ++ exn_msg e];
         input := input_data;
         timestamp := None;
         error := Some true |}
  end.

(** [RegoWASMValidator.validate_input] *)
Definition validate_input : value -> value -> ValidationResult :=
  validate_input_with _check_rules.
End Validator.

(** ** A small regular-expression engine

    An instance of the [re] interface to run the validator on concrete
    documents.  It follows CPython's parser and matcher on a fragment of the
    syntax: literal characters, [.], [\d], escaped punctuation, [^], [$],
    groups, [|], the postfix [*], [+], [?] and the counted repetition [{n}],
    with the parser's bound on the count.  Syntax outside the fragment is
    reported as [re.error], so the engine stands for Python's on the fragment
    only. *)
Module MiniRe.

Inductive re : Type :=
| Eps
| Chr (c : ascii)
| Any
| Digit
| Bol
| Eol
| Seq (a b : re)
| Alt (a b : re)
| Star (a : re)
| Rep (a : re) (n : N).

Definition newline : ascii := "010"%char.

Definition is_digit (c : ascii) : bool :=
  let n := nat_of_ascii c in ((48 <=? n) && (n <=? 57))%nat.

(** Positions reachable from [i] by repeating [step], each round moving
    forward. *)
Fixpoint closure (fuel : nat) (step : nat -> list nat) (i : nat) : list nat :=
  i :: match fuel with
       | O => []
       | S fuel' =>
           flat_map (fun j => if (i <? j)%nat then closure fuel' step j else [])
                    (step i)
       end.

(** The positions at which a match of [r] that starts at [i] can end. *)
Fixpoint ends (r : re) (s : string) (i : nat) : list nat :=
  match r with
  | Eps => [i]
  | Chr c =>
      match String.get i s with
      | Some c' => if Ascii.eqb c c' then [S i] else []
      | None => []
      end
  | Any =>
      match String.get i s with
      | Some c' => if Ascii.eqb c' newline then [] else [S i]
      | None => []
      end
  | Digit =>
      match String.get i s with
      | Some c' => if is_digit c' then [S i] else []
      | None => []
      end
  | Bol => if (i =? 0)%nat then [i] else []
  | Eol =>
      if (i =? String.length s)%nat then [i]
      else if (S i =? String.length s)%nat then
             match String.get i s with
             | Some c' => if Ascii.eqb c' newline then [i] else []
             | None => []
             end
           else []
  | Seq a b => flat_map (ends b s) (ends a s i)
  | Alt a b => (ends a s i ++ ends b s i)%list
  | Star a => closure (String.length s) (ends a s) i
  | Rep a n => N.iter n (fun l => flat_map (ends a s) l) [i]
  end.

Definition span (r : re) (s : string) (i j : nat) : bool :=
  existsb (Nat.eqb j) (ends r s i).

Definition is_quantifier (c : ascii) : bool :=
  Ascii.eqb c "*" || Ascii.eqb c "+" || Ascii.eqb c "?" || Ascii.eqb c "{".

Definition is_alnum (c : ascii) : bool :=
  let n := nat_of_ascii c in
  (((48 <=? n) && (n <=? 57)) || ((65 <=? n) && (n <=? 90))
   || ((97 <=? n) && (n <=? 122)))%nat.

Definition error {A : Type} (msg : string) : result A :=
  Raise (Exn ReError msg).

(** [_sre.MAXREPEAT] *)
Definition MAXREPEAT : N := 4294967295.

(** The decimal digits at the head of [s], read as a number, and what
    follows them. *)
Fixpoint digits (acc : N) (s : string) : N * string :=
  match s with
  | String c rest =>
      if is_digit c
      then digits (10 * acc + N.of_nat (nat_of_ascii c - 48)) rest
      else (acc, s)
  | EmptyString => (acc, s)
  end.

(** A postfix operator after the item [a], if there is one.  For a count the
    parser reads the number and checks it against [MAXREPEAT] before it looks
    at the item. *)
Definition quantified (a : re) (s : string) : result (re * string) :=
  match s with
  | String q rest =>
      if is_quantifier q then
        r <- (if Ascii.eqb q "{" then
                match rest with
                | String c _ =>
                    if is_digit c then
                      match digits 0 rest with
                      | (n, String "}" rest') =>
                          if (MAXREPEAT <=? n)%N
                          then Raise (Exn OverflowError
                                        "the repetition number is too large")
                          else Ok (Rep a n, rest')
                      | _ => error "unsupported repetition"
                      end
                    else error "unsupported repetition"
                | EmptyString => error "unsupported repetition"
                end
              else if Ascii.eqb q "*" then Ok (Star a, rest)
              else if Ascii.eqb q "+" then Ok (Seq a (Star a), rest)
              else Ok (Alt a Eps, rest)) ;;
        match a with
        | Bol | Eol => error "nothing to repeat"
        | _ =>
            match snd r with
            | String q' _ =>
                if is_quantifier q' then error "unsupported repetition"
                else Ok r
            | EmptyString => Ok r
            end
        end
      else Ok (a, s)
  | EmptyString => Ok (a, s)
  end.

Fixpoint parse_alt (fuel : nat) (s : string) : result (re * string) :=
  match fuel with
  | O => error "pattern too long"
  | S fuel' =>
      r <- parse_seq fuel' s ;;
      match r with
      | (a, String "|" rest) =>
          r' <- parse_alt fuel' rest ;;
          Ok (Alt a (fst r'), snd r')
      | _ => Ok r
      end
  end
with parse_seq (fuel : nat) (s : string) : result (re * string) :=
  match fuel with
  | O => error "pattern too long"
  | S fuel' =>
      match s with
      | EmptyString => Ok (Eps, s)
      | String c rest =>
          if Ascii.eqb c "|" || Ascii.eqb c ")" then Ok (Eps, s)
          else
            r1 <- parse_atom fuel' c rest ;;
            r2 <- quantified (fst r1) (snd r1) ;;
            r3 <- parse_seq fuel' (snd r2) ;;
            Ok (Seq (fst r2) (fst r3), snd r3)
      end
  end
with parse_atom (fuel : nat) (c : ascii) (rest : string)
  : result (re * string) :=
  match fuel with
  | O => error "pattern too long"
  | S fuel' =>
      if Ascii.eqb c "(" then
        match rest with
        | String "?" _ => error "unsupported group"
        | _ =>
            r <- parse_alt fuel' rest ;;
            match r with
            | (a, String ")" rest') => Ok (a, rest')
            | _ => error "missing ), unterminated subpattern"
            end
        end
      else if Ascii.eqb c backslash then
        match rest with
        | String e rest' =>
            if Ascii.eqb e "d" then Ok (Digit, rest')
            else if is_alnum e || (128 <=? nat_of_ascii e)%nat
                 then error "unsupported escape"
                 else Ok (Chr e, rest')
        | EmptyString => error "bad escape (end of pattern)"
        end
      else if is_quantifier c || Ascii.eqb c "[" then error "unsupported syntax"
      else if Ascii.eqb c "." then Ok (Any, rest)
      else if Ascii.eqb c "^" then Ok (Bol, rest)
      else if Ascii.eqb c "$" then Ok (Eol, rest)
      else Ok (Chr c, rest)
  end.

Definition compile (pat : string) : result re :=
  r <- parse_alt (4 * String.length pat + 4) pat ;;
  match r with
  | (a, EmptyString) => Ok a
  | _ => error "unbalanced parenthesis"
  end.

#[export] Instance engine : ReModule :=
  {| Pattern := re; re_compile := compile; re_span := span |}.

End MiniRe.

(** ** The data model and the checks of the specification *)

Definition is_bool (v : value) : bool :=
  match v with VBool _ => true | _ => false end.
Definition is_int (v : value) : bool :=
  match v with VInt _ => true | _ => false end.
Definition is_str (v : value) : bool :=
  match v with VStr _ => true | _ => false end.
Definition is_list (v : value) : bool :=
  match v with VList _ => true | _ => false end.

(** An optional field: absent, or of the stated type. *)
Definition field_ok (d : list (string * value)) (ty : value -> bool)
    (k : string) : bool :=
  match dict_get d k with
  | Some v => ty v
  | None => true
  end.

Definition bool_params : list string :=
  ["tests_passed"; "artifact_signed"; "release_controlled";
   "require_reviewers"; "shared_infra_except_core"; "change_recorded";
   "require_ticket"; "deployment_date_agreed"; "signed_off";
   "retrospective_signoff"; "components_unchanged";
   "rollback_instructions_present"].

Definition int_params : list string :=
  ["min_reviewers"; "wait_timer_seconds"; "max_deployments_per_day"].

Definition str_params : list string := ["ticket_pattern"].

(** The sixteen recognized rule parameters. *)
Definition recognized_params : list string :=
  bool_params ++ int_params ++ str_params.

(** An [EnvironmentRules] record: every recognized parameter is absent or of
    its type. *)
Definition well_typed_rules (rules : value) : bool :=
  match rules with
  | VDict d =>
      forallb (field_ok d is_bool) bool_params
      && forallb (field_ok d is_int) int_params
      && forallb (field_ok d is_str) str_params
  | _ => false
  end.

Definition bool_fields : list string :=
  ["artifact_signed"; "release_controlled"; "shared_infra"; "change_recorded";
   "deployment_date_agreed"; "is_emergency"; "signed_off";
   "components_changed_after_signoff"; "rollback_instructions_present"].

Definition int_fields : list string :=
  ["wait_elapsed_seconds"; "deployments_today"].

Definition str_fields : list string := ["env"; "ticket_id"].

(** An [InputEvent]: every field is absent or of its type; [checks], when
    present, is a mapping whose [tests] is absent or a boolean. *)
Definition well_typed_input (input_data : value) : bool :=
  match input_data with
  | VDict d =>
      forallb (field_ok d is_bool) bool_fields
      && forallb (field_ok d is_int) int_fields
      && forallb (field_ok d is_str) str_fields
      && field_ok d is_list "approvers"
      && match dict_get d "checks" with
         | Some (VDict c) => field_ok c is_bool "tests"
         | Some _ => false
         | None => true
         end
  | _ => false
  end.

(** Typed readings of a document: an absent boolean is [false], an absent
    number is [0], an absent text or sequence is empty. *)
Definition lookup (o : value) (k : string) : option value :=
  match o with
  | VDict d => dict_get d k
  | _ => None
  end.

Definition flag (o : value) (k : string) : bool :=
  match lookup o k with Some (VBool b) => b | _ => false end.

Definition number (o : value) (k : string) : Z :=
  match lookup o k with Some (VInt n) => n | _ => 0 end.

Definition text (o : value) (k : string) : string :=
  match lookup o k with Some (VStr s) => s | _ => "" end.

Definition items (o : value) (k : string) : list value :=
  match lookup o k with Some (VList l) => l | _ => [] end.

Definition member (o : value) (k : string) : value :=
  match lookup o k with Some v => v | None => VDict [] end.

(** The three states of a boolean parameter: unset, true, false. *)
Definition tristate (o : value) (k : string) : option bool :=
  match lookup o k with Some (VBool b) => Some b | _ => None end.

Definition explicitly_false (o : value) (k : string) : bool :=
  match tristate o k with Some false => true | _ => false end.

Definition when (c : bool) (msg : string) : option string :=
  if c then Some msg else None.

Definition reviewers_message (min_reviewers approvers : Z) : string :=
  "Rule#1: at least " ++ str_of_Z min_reviewers
    ++ " approvers required (got " ++ str_of_Z approvers ++ ")".

Definition ticket_message (ticket_pattern : string) : string :=
  "Rule#3: ticket id invalid/missing (pattern " ++ ticket_pattern ++ ")".

Definition wait_message (elapsed wait_timer : Z) : string :=
  "Rule#4: wait timer not elapsed (" ++ str_of_Z elapsed ++ " < "
    ++ str_of_Z wait_timer ++ ")".

Definition guardrail_message (deployments_today max_deployments : Z) : string :=
  "Max deployments per day exceeded (" ++ str_of_Z deployments_today ++ " > "
    ++ str_of_Z max_deployments ++ ")".

Section Specification.
Context {RE : ReModule}.

(** The pattern compiles, or the engine rejects it with [re.error], the
    exception [_valid_ticket] handles. *)
Definition pattern_handled (pattern : string) : bool :=
  match re_compile pattern with
  | Ok _ => true
  | Raise e => exn_class_eqb (exn_cls e) ReError
  end.

(** The documents do not bring the ticket check to a pattern that the engine
    rejects otherwise: the check is off, or the id or the pattern is empty,
    or the pattern is handled. *)
Definition ticket_handled (rules input_data : value) : bool :=
  negb (flag rules "require_ticket")
  || String.eqb (text input_data "ticket_id") ""
  || String.eqb (text rules "ticket_pattern") ""
  || pattern_handled (text rules "ticket_pattern").

(** The ticket-validation sub-algorithm of the specification. *)
Definition validTicket (id pattern : string) : bool :=
  if String.eqb id "" then false
  else if String.eqb pattern "" then true
  else match re_compile pattern with
       | Ok p => pattern_match p id
       | Raise _ => false
       end.

(** The fourteen checks of the specification, each the message it yields
    when it triggers. *)
Definition check_tests (rules input_data : value) : option string :=
  when (flag rules "tests_passed"
        && negb (flag (member input_data "checks") "tests"))
       "Rule#1: tests required but not passed".

Definition check_artifact (rules input_data : value) : option string :=
  when (flag rules "artifact_signed" && negb (flag input_data "artifact_signed"))
       "Rule#1: artifact must be signed".

Definition check_release (rules input_data : value) : option string :=
  when (flag rules "release_controlled"
        && negb (flag input_data "release_controlled"))
       "Rule#1: release must be controlled".

Definition check_reviewers (rules input_data : value) : option string :=
  let approvers := Z.of_nat (List.length (items input_data "approvers")) in
  when (flag rules "require_reviewers"
        && (approvers <? number rules "min_reviewers"))
       (reviewers_message (number rules "min_reviewers") approvers).

Definition check_shared_infra (rules input_data : value) : option string :=
  when (explicitly_false rules "shared_infra_except_core"
        && flag input_data "shared_infra")
       "Rule#2: production cannot run on shared infra (except core)".

Definition check_change (rules input_data : value) : option string :=
  when (flag rules "change_recorded" && negb (flag input_data "change_recorded"))
       "Rule#3: change must be recorded".

Definition check_ticket (rules input_data : value) : option string :=
  when (flag rules "require_ticket"
        && negb (validTicket (text input_data "ticket_id")
                             (text rules "ticket_pattern")))
       (ticket_message (text rules "ticket_pattern")).

Definition check_date (rules input_data : value) : option string :=
  when (flag rules "deployment_date_agreed"
        && negb (flag input_data "deployment_date_agreed"))
       "Rule#4: deployment date not agreed".

Definition check_wait (rules input_data : value) : option string :=
  when ((number rules "wait_timer_seconds" >? 0)
        && (number input_data "wait_elapsed_seconds"
            <? number rules "wait_timer_seconds"))
       (wait_message (number input_data "wait_elapsed_seconds")
                     (number rules "wait_timer_seconds")).

Definition check_signoff (rules input_data : value) : option string :=
  when (flag rules "signed_off"
        && negb (flag input_data "is_emergency")
        && negb (flag input_data "signed_off"))
       "Rule#5: missing required sign-off".

Definition check_emergency (rules input_data : value) : option string :=
  when (flag input_data "is_emergency"
        && explicitly_false rules "retrospective_signoff")
       "Rule#5: emergency path requires retrospective_signoff enabled".

Definition check_components (rules input_data : value) : option string :=
  when (flag rules "components_unchanged"
        && flag input_data "components_changed_after_signoff")
       "Rule#6: components changed after signoff; require new signoff".

Definition check_rollback (rules input_data : value) : option string :=
  when (flag rules "rollback_instructions_present"
        && negb (flag input_data "rollback_instructions_present"))
       "Rule#7: rollback instructions must be present".

Definition check_guardrail (rules input_data : value) : option string :=
  when ((number rules "max_deployments_per_day" >? 0)
        && (number input_data "deployments_today"
            >? number rules "max_deployments_per_day"))
       (guardrail_message (number input_data "deployments_today")
                          (number rules "max_deployments_per_day")).

Definition checks : list (value -> value -> option string) :=
  [check_tests; check_artifact; check_release; check_reviewers;
   check_shared_infra; check_change; check_ticket; check_date; check_wait;
   check_signoff; check_emergency; check_components; check_rollback;
   check_guardrail].

Definition triggered (rules input_data : value)
    (chk : value -> value -> option string) : list string :=
  match chk rules input_data with
  | Some msg => [msg]
  | None => []
  end.

(** [evaluate] of the specification: every check is applied, whatever the
    others gave, and the messages are kept in the order of the checks. *)
Definition evaluate (rules input_data : value) : list string :=
  flat_map (triggered rules input_data) checks.

(** The result of an unresolved environment. *)
Definition unknown_environment (input_data : value) (name : string)
  : ValidationResult :=
  {| allowed := false;
     violations := ["Unknown environment: " ++ name];
     input := input_data;
     timestamp := Some "2025-01-18T16:00:00Z";
     error := None |}.
End Specification.

(** ** Auxiliary notions for the statements *)

(** The messages of a check: one or none. *)
Definition opt (o : option string) : list string :=
  match o with Some msg => [msg] | None => [] end.

(** [violations.isEmpty()] of a result. *)
Definition no_violations (r : ValidationResult) : bool :=
  match violations r with
  | [] => true
  | _ :: _ => false
  end.

(** The environments mapping of the policy document, as [validate_input]
    reaches it: [self.data.get("policy", {}).get("environments", {})]. *)
Definition environments_of (data : value) : result value :=
  policy <- py_get data "policy" (VDict []) ;;
  py_get policy "environments" (VDict []).

(** The result built by the [except Exception] handler. *)
Definition validation_error (input_data : value) (e : exn) : ValidationResult :=
  {| allowed := false;
     violations := ["Validation error: " ++ exn_msg e];
     input := input_data;
     timestamp := None;
     error := Some true |}.

(** *** Sample documents *)

Definition prod_rules : value :=
  VDict [("tests_passed", VBool true);
         ("artifact_signed", VBool true);
         ("require_reviewers", VBool true);
         ("min_reviewers", VInt 2);
         ("shared_infra_except_core", VBool false);
         ("require_ticket", VBool true);
         ("ticket_pattern", VStr "^JIRA-\d+$");
         ("wait_timer_seconds", VInt 300);
         ("signed_off", VBool true);
         ("retrospective_signoff", VBool false);
         ("max_deployments_per_day", VInt 3)].

Definition sample_policy : value :=
  VDict [("policy",
          VDict [("environments",
                  VDict [("prod", VDict [("rules", prod_rules)])])])].

Definition emergency_event : value :=
  VDict [("env", VStr "prod");
         ("checks", VDict [("tests", VBool true)]);
         ("artifact_signed", VBool true);
         ("approvers", VList [VStr "a"]);
         ("shared_infra", VBool true);
         ("ticket_id", VStr "TICKET-1");
         ("wait_elapsed_seconds", VInt 300);
         ("is_emergency", VBool true);
         ("signed_off", VBool false);
         ("deployments_today", VInt 4)].

Definition staging_event : value :=
  VDict [("env", VStr "staging"); ("deployments_today", VInt 4)].

Definition anonymous_event : value :=
  VDict [("ticket_id", VStr "JIRA-7"); ("approvers", VNone)].

Definition prod_environments : list (string * value) :=
  [("prod", VDict [("rules", prod_rules)])].

Definition broken_rules : value :=
  VDict [("require_ticket", VBool true); ("ticket_pattern", VStr "(JIRA")].

Definition overflow_rules : value :=
  VDict [("require_ticket", VBool true);
         ("ticket_pattern", VStr "a{4294967295}")].

Definition overflow_policy : value :=
  VDict [("policy",
          VDict [("environments",
                  VDict [("prod", VDict [("rules", overflow_rules)])])])].

Definition ticket_event : value :=
  VDict [("env", VStr "prod"); ("ticket_id", VStr "x")].

(** A rule set with the same ticket pattern among other parameters, and an
    emergency event that meets the conditions of the reviewer, shared-infra,
    retrospective sign-off and deployment-rate violations. *)
Definition guarded_rules : value :=
  VDict [("require_reviewers", VBool true);
         ("min_reviewers", VInt 2);
         ("shared_infra_except_core", VBool false);
         ("require_ticket", VBool true);
         ("ticket_pattern", VStr "a{4294967295}");
         ("signed_off", VBool true);
         ("retrospective_signoff", VBool false);
         ("max_deployments_per_day", VInt 3)].

Definition guarded_policy : value :=
  VDict [("policy",
          VDict [("environments",
                  VDict [("prod", VDict [("rules", guarded_rules)])])])].

Definition rush_event : value :=
  VDict [("env", VStr "prod");
         ("approvers", VList [VStr "a"]);
         ("shared_infra", VBool true);
         ("ticket_id", VStr "x");
         ("is_emergency", VBool true);
         ("deployments_today", VInt 4)].

(** ** The callers: loading the scenarios and running them

    The runners of [validate_policy.py] and [test_all_scenarios.py] read
    files and print.  The files they read are a parameter; the lines they
    print that depend on the run are kept as events, without the wording and
    the decoration, and the fixed banners are left out.

    Printing is taken to succeed: the definitions below describe the runs in
    which no [print] raises.  In the scripts a [print] outside the [try]
    blocks that raises (a name that the encoding of the console cannot
    write, a closed pipe) ends the runner with that exception, and one inside
    the [try] of the loop makes the scenario count as failed; such runs are
    not described, and the statements about the runners are about the runs
    that are. *)

(** [rules = self.data["policy"]["environments"][env]["rules"]] *)
Definition rules_of (data env : value) : result value :=
  p <- py_getitem data (VStr "policy") ;;
  es <- py_getitem p (VStr "environments") ;;
  e <- py_getitem es env ;;
  py_getitem e (VStr "rules").

(** The fields of the input event that [validate_input] and [_check_rules]
    read. *)
Definition input_fields : list string :=
  ["env"; "checks"; "approvers"; "ticket_id"] ++ bool_fields ++ int_fields.

(** [d[k] = v] on a dictionary: the value of an existing key is replaced
    where it stands, a new key goes to the end. *)
Fixpoint dict_set (d : list (string * value)) (k : string) (v : value)
  : list (string * value) :=
  match d with
  | [] => [(k, v)]
  | (k', w) :: d' =>
      if String.eqb k k' then (k', v) :: d' else (k', w) :: dict_set d' k v
  end.

Definition dict_remove (d : list (string * value)) (k : string)
  : list (string * value) :=
  filter (fun kv => negb (String.eqb k (fst kv))) d.

(** [o[k] = v] with a [str] key; the object is changed in place, here the
    changed object is returned. *)
Definition py_setitem (o : value) (k : string) (v : value) : result value :=
  match o with
  | VDict d => Ok (VDict (dict_set d k v))
  | VList _ =>
      Raise (Exn TypeError "list indices must be integers or slices, not str")
  | _ => Raise (Exn TypeError
                  ("'" ++ type_name o
                       ++ "' object does not support item assignment"))
  end.

(** [o.pop(k, default)]: the value popped and the object after the call. *)
Definition py_pop (o : value) (k : string) (default : value)
  : result (value * value) :=
  match o with
  | VDict d =>
      Ok (match dict_get d k with Some v => v | None => default end,
          VDict (dict_remove d k))
  | VList _ => Raise (Exn TypeError "pop expected at most 1 argument, got 2")
  | _ => Raise (Exn AttributeError
                  ("'" ++ type_name o ++ "' object has no attribute 'pop'"))
  end.

(** What the runners find on disk.  [wasm_file]: [build/policy.wasm] is
    absent, or present and loaded by wasmtime or not.  [policy_file]:
    [policies/policy.json] is absent, or present with what [open] and
    [json.load] give, [None] when they raise.  [test_inputs]: the directory
    [test-inputs] is absent, or present with its [*.json] files in the order
    of [glob], each with its stem and what [open] and [json.load] give. *)
Record Files : Type := {
  wasm_file : option bool;
  policy_file : option (option value);
  test_inputs : option (list (string * option value))
}.

(** The lines printed that depend on the run. *)
Inductive line : Type :=
| WasmMissing
| WasmLoaded
| WasmFailed
| PolicyMissing
| InitFailed
| LoadFailed (stem : string)
| NoScenarios
| Running (count : Z)
| Testing (test_name : string)
| AllowedLine (test_name : string)
| AllowedMark
| DeniedMark
| AllowedCount (count : Z)
| DeniedLine (test_name : string)
| DeniedCount (count : Z)
| Bullet (violation : string)
| More (count : Z)
| Numbered (index : Z) (violation : string)
| Summary (passed failed : Z)
| AllPassed
| SomeFailed (failed : Z)
| Report (total passed failed : Z)
| SuccessRate (passed total : Z)
| FailedHeader
| FailedTest (test_name : string).

(** The loop of [load_test_scenarios] over the files of the directory. *)
Fixpoint load_files (files : list (string * option value))
  : list line * list value :=
  match files with
  | [] => ([], [])
  | (stem, content) :: files' =>
      let (out, scenarios) := load_files files' in
      match content with
      | Some data =>
          match py_setitem data "_test_name" (VStr stem) with
          | Ok data' => (out, data' :: scenarios)
          | Raise _ => (LoadFailed stem :: out, scenarios)
          end
      | None => (LoadFailed stem :: out, scenarios)
      end
  end.

(** [load_test_scenarios] *)
Definition load_test_scenarios (fs : Files) : list line * list value :=
  match test_inputs fs with
  | Some files => load_files files
  | None => ([], [])
  end.

(** [violations[:5]] and the line telling how many are left. *)
Definition first_violations (vs : list string) : list line :=
  map Bullet (firstn 5 vs)
  ++ (if Z.of_nat (List.length vs) >? 5
      then [More (Z.of_nat (List.length vs) - 5)] else []).

(** [enumerate(violations, 1)] printed one per line. *)
Fixpoint numbered (i : Z) (vs : list string) : list line :=
  match vs with
  | [] => []
  | v :: vs' => Numbered i v :: numbered (i + 1) vs'
  end.

Section Runners.
Context {RE : ReModule}.

(** Whether a scenario counts as passed: [result.get("allowed")] for the
    scenario without its [_test_name]. *)
Definition scenario_passes (data scenario : value) : bool :=
  match py_pop scenario "_test_name" (VStr "unknown") with
  | Ok p => allowed (validate_input data (snd p))
  | Raise _ => false
  end.

(** The body of the loop of [main] in [validate_policy.py]: the lines printed
    and whether the scenario counts as passed.  The [pop] is outside the
    [try] of the loop. *)
Definition main_scenario (data scenario : value) : result (list line * bool) :=
  p <- py_pop scenario "_test_name" (VStr "unknown") ;;
  let test_name := py_str (fst p) in
  let result := validate_input data (snd p) in
  if allowed result then
    Ok (Testing test_name :: AllowedLine test_name
          :: (if no_violations result then []
              else [AllowedCount (Z.of_nat (List.length (violations result)))]),
        true)
  else
    Ok (Testing test_name :: DeniedLine test_name
          :: DeniedCount (Z.of_nat (List.length (violations result)))
          :: first_violations (violations result),
        false).

(** The loop of [main]: the lines, [passed] and [failed]. *)
Fixpoint main_loop (data : value) (scenarios : list value) (passed failed : Z)
  : result (list line * (Z * Z)) :=
  match scenarios with
  | [] => Ok ([], (passed, failed))
  | scenario :: scenarios' =>
      r <- main_scenario data scenario ;;
      let (out, ok) := r in
      r' <- (if ok then main_loop data scenarios' (passed + 1) failed
             else main_loop data scenarios' passed (failed + 1)) ;;
      Ok ((out ++ fst r')%list, snd r')
  end.

(** The first [try] of [main]: the validator's [data], or the lines of a
    failure.  With a WASM file the constructor loads the policy data and
    then the module. *)
Definition main_validator (fs : Files) : list line * option value :=
  let warning := match wasm_file fs with None => [WasmMissing] | Some _ => [] end in
  match policy_file fs with
  | None => ((warning ++ [PolicyMissing])%list, None)
  | Some None => ((warning ++ [InitFailed])%list, None)
  | Some (Some data) =>
      match wasm_file fs with
      | Some true => ([WasmLoaded], Some data)
      | Some false => ([WasmFailed; InitFailed], None)
      | None => (warning, Some data)
      end
  end.

(** [main] of [validate_policy.py]: the lines printed and the value returned,
    which is the exit status of the script. *)
Definition main (fs : Files) : result (list line * Z) :=
  match main_validator fs with
  | (out, None) => Ok (out, 1)
  | (out, Some data) =>
      let (out', scenarios) := load_test_scenarios fs in
      match scenarios with
      | [] => Ok ((out ++ out' ++ [NoScenarios])%list, 1)
      | _ :: _ =>
          r <- main_loop data scenarios 0 0 ;;
          let (passed, failed) := snd r in
          Ok ((out ++ out' ++ Running (Z.of_nat (List.length scenarios))
                 :: fst r
                 ++ Summary passed failed
                 :: (if failed =? 0 then [AllPassed] else [SomeFailed failed]))%list,
              if failed =? 0 then 0 else 1)
      end
  end.

(** The body of the loop of [run_comprehensive_tests]: the lines printed and
    the entry added to [results], its name and its [success]. *)
Definition comprehensive_scenario (data scenario : value)
  : result (list line * (string * bool)) :=
  p <- py_pop scenario "_test_name" (VStr "unknown") ;;
  let test_name := py_str (fst p) in
  let result := validate_input data (snd p) in
  Ok (Testing test_name
        :: (if allowed result then [AllowedMark]
            else DeniedMark
                   :: DeniedCount (Z.of_nat (List.length (violations result)))
                   :: numbered 1 (violations result)),
      (test_name, allowed result)).

Fixpoint comprehensive_loop (data : value) (scenarios : list value)
  : result (list line * list (string * bool)) :=
  match scenarios with
  | [] => Ok ([], [])
  | scenario :: scenarios' =>
      r <- comprehensive_scenario data scenario ;;
      r' <- comprehensive_loop data scenarios' ;;
      Ok ((fst r ++ fst r')%list, snd r :: snd r')
  end.

(** [run_comprehensive_tests] of [test_all_scenarios.py]. *)
Definition run_comprehensive_tests (fs : Files) : result (list line * Z) :=
  let (out, scenarios) := load_test_scenarios fs in
  match scenarios with
  | [] => Ok ((out ++ [NoScenarios])%list, 1)
  | _ :: _ =>
      match policy_file fs with
      | Some (Some data) =>
          r <- comprehensive_loop data scenarios ;;
          let results := snd r in
          let passed :=
            Z.of_nat (List.length (filter (fun t => snd t) results)) in
          let failed := Z.of_nat (List.length results) - passed in
          Ok ((out ++ fst r
                 ++ Report (Z.of_nat (List.length results)) passed failed
                 :: SuccessRate passed (Z.of_nat (List.length results))
                 :: (if failed >? 0
                     then FailedHeader
                            :: map (fun t => FailedTest (fst t))
                                   (filter (fun t => negb (snd t)) results)
                     else []))%list,
              if failed =? 0 then 0 else 1)
      | _ => Ok ((out ++ [InitFailed])%list, 1)
      end
  end.
End Runners.

(** *** More sample documents *)

Definition compliant_event : value :=
  VDict [("env", VStr "prod");
         ("checks", VDict [("tests", VBool true)]);
         ("artifact_signed", VBool true);
         ("approvers", VList [VStr "a"; VStr "b"]);
         ("ticket_id", VStr "JIRA-123");
         ("wait_elapsed_seconds", VInt 300);
         ("signed_off", VBool true);
         ("deployments_today", VInt 3)].

Definition sample_files : Files :=
  {| wasm_file := None;
     policy_file := Some (Some sample_policy);
     test_inputs :=
       Some [("compliant", Some compliant_event);
             ("broken", None);
             ("array", Some (VList [VInt 1]));
             ("emergency", Some emergency_event)] |}.

Definition compliant_files : Files :=
  {| wasm_file := Some true;
     policy_file := Some (Some sample_policy);
     test_inputs :=
       Some [("compliant", Some compliant_event); ("broken", None)] |}.

(** ** Reading typed fields *)

Lemma bind_Ok {A B : Type} (a : A) (k : A -> result B) : bind (Ok a) k = k a.
Proof. reflexivity. Qed.

Lemma bind_Ok_inv {A B : Type} (m : result A) (k : A -> result B) (b : B) :
  bind m k = Ok b -> exists a, m = Ok a /\ k a = Ok b.
Proof. destruct m as [a|e]; simpl; [eauto | discriminate]. Qed.

Lemma append_if_when (c : bool) (vs : list string) (msg : string) :
  append_if c vs msg = (vs ++ opt (when c msg))%list.
Proof. destruct c; simpl; [reflexivity | now rewrite app_nil_r]. Qed.

Lemma guarded_append (c c' : bool) (vs : list string) (msg : string) :
  (if c then Ok (vs ++ opt (when c' msg))%list else Ok vs)
  = Ok (vs ++ opt (when (c && c') msg))%list.
Proof. destruct c; simpl; [reflexivity | now rewrite app_nil_r]. Qed.

Lemma lt_numbers (a b : Z) : py_lt (VInt a) (VInt b) = Ok (a <? b).
Proof. reflexivity. Qed.

Lemma gt_numbers (a b : Z) : py_gt (VInt a) (VInt b) = Ok (a >? b).
Proof. reflexivity. Qed.

Lemma and_Ok (a b : bool) : and_ (Ok a) (Ok b) = Ok (a && b).
Proof. now destruct a. Qed.

Lemma not_Ok (a : bool) : not_ (Ok a) = Ok (negb a).
Proof. reflexivity. Qed.

Section TypedFields.
Variable d : list (string * value).
Variable k : string.

Lemma truth_flag :
  field_ok d is_bool k = true ->
  truth (py_get (VDict d) k VNone) = Ok (flag (VDict d) k).
Proof.
  unfold field_ok, truth, flag, lookup, py_get, bind.
  destruct (dict_get d k) as [[]|]; simpl; congruence.
Qed.

Lemma eq_false_flag :
  field_ok d is_bool k = true ->
  eq_ (py_get (VDict d) k VNone) (VBool false)
  = Ok (explicitly_false (VDict d) k).
Proof.
  unfold field_ok, eq_, explicitly_false, tristate, lookup, py_get, bind.
  destruct (dict_get d k) as [[| [] | | | |]|]; simpl; congruence.
Qed.

Lemma eq_true_flag :
  field_ok d is_bool k = true ->
  eq_ (py_get (VDict d) k VNone) (VBool true) = Ok (flag (VDict d) k).
Proof.
  unfold field_ok, eq_, flag, lookup, py_get, bind.
  destruct (dict_get d k) as [[| [] | | | |]|]; simpl; congruence.
Qed.

Lemma get_number :
  field_ok d is_int k = true ->
  py_get (VDict d) k (VInt 0) = Ok (VInt (number (VDict d) k)).
Proof.
  unfold field_ok, number, lookup, py_get.
  destruct (dict_get d k) as [[]|]; simpl; congruence.
Qed.

Lemma get_text :
  field_ok d is_str k = true ->
  py_get (VDict d) k (VStr "") = Ok (VStr (text (VDict d) k)).
Proof.
  unfold field_ok, text, lookup, py_get.
  destruct (dict_get d k) as [[]|]; simpl; congruence.
Qed.

Lemma len_items :
  field_ok d is_list k = true ->
  (a <- py_get (VDict d) k (VList []) ;; py_len a)
  = Ok (Z.of_nat (List.length (items (VDict d) k))).
Proof.
  unfold field_ok, items, lookup, py_get, bind.
  destruct (dict_get d k) as [[]|]; simpl; congruence.
Qed.
End TypedFields.

Lemma truth_checks_tests (d : list (string * value)) :
  match dict_get d "checks" with
  | Some (VDict c) => field_ok c is_bool "tests"
  | Some _ => false
  | None => true
  end = true ->
  truth (checks <- py_get (VDict d) "checks" (VDict []) ;;
         py_get checks "tests" VNone)
  = Ok (flag (member (VDict d) "checks") "tests").
Proof.
  unfold member, lookup. cbn [py_get bind].
  destruct (dict_get d "checks") as [[]|]; try discriminate.
  - apply truth_flag.
  - reflexivity.
Qed.

Section Refinement.
Context {RE : ReModule}.

Lemma pattern_match_spec (p : Pattern) (s : string) :
  pattern_match p s = true
  <-> exists j, (j <= String.length s)%nat /\ re_span p s 0 j = true.
Proof.
  unfold pattern_match, positions. rewrite existsb_exists.
  split; intros [j [H1 H2]]; exists j.
  - apply in_seq in H1. split; [lia | exact H2].
  - split; [apply in_seq; lia | exact H2].
Qed.

Lemma valid_ticket_typed (id pattern : string) :
  String.eqb id "" || String.eqb pattern "" || pattern_handled pattern = true ->
  _valid_ticket (VStr id) (VStr pattern) = Ok (validTicket id pattern).
Proof.
  unfold _valid_ticket, validTicket, pattern_handled. cbn [truthy].
  destruct (String.eqb id ""); [reflexivity|].
  destruct (String.eqb pattern ""); [reflexivity|].
  cbn [negb re_match orb].
  destruct (re_compile pattern) as [p|e]; cbn [bind try_except].
  - reflexivity.
  - intros H. now rewrite H.
Qed.

(** An exception of the engine that is not [re.error] passes the handler of
    [_valid_ticket]. *)
Lemma valid_ticket_raises (id pattern : string) (e : exn) :
  id <> "" -> pattern <> "" ->
  re_compile pattern = Raise e -> exn_cls e <> ReError ->
  _valid_ticket (VStr id) (VStr pattern) = Raise e.
Proof.
  intros Hid Hpat Hc He. unfold _valid_ticket. cbn [truthy re_match].
  apply String.eqb_neq in Hid, Hpat. rewrite Hid, Hpat, Hc.
  cbn [negb bind try_except].
  destruct (exn_cls e); try reflexivity. congruence.
Qed.

(** The block of the ticket check. *)
Lemma ticket_block (c : bool) (id pattern : string) (vs : list string)
    (msg : string) :
  negb c || String.eqb id "" || String.eqb pattern ""
  || pattern_handled pattern = true ->
  (if c then
     c' <- not_ (_valid_ticket (VStr id) (VStr pattern)) ;;
     Ok (append_if c' vs msg)
   else Ok vs)
  = Ok (vs ++ opt (when (c && negb (validTicket id pattern)) msg))%list.
Proof.
  destruct c; cbn [negb orb andb].
  - intros H. rewrite valid_ticket_typed by exact H.
    rewrite not_Ok, bind_Ok. now rewrite append_if_when.
  - intros _. simpl. now rewrite app_nil_r.
Qed.

(** On well-typed documents the code computes the checks of the
    specification, all of them and in their order. *)
Lemma check_rules_typed (input_data rules : value) :
  well_typed_rules rules = true ->
  well_typed_input input_data = true ->
  ticket_handled rules input_data = true ->
  _check_rules input_data rules = Ok (evaluate rules input_data).
Proof.
  intros Hr Hi Ht. unfold ticket_handled in Ht.
  destruct rules as [| | | | |dr]; try discriminate.
  destruct input_data as [| | | | |di]; try discriminate.
  unfold well_typed_rules, bool_params, int_params, str_params in Hr.
  unfold well_typed_input, bool_fields, int_fields, str_fields in Hi.
  cbn [forallb] in Hr, Hi.
  repeat match goal with
         | H : _ && _ = true |- _ => apply andb_prop in H; destruct H
         end.
  unfold _check_rules.
  repeat first
    [ rewrite truth_flag by assumption
    | rewrite truth_checks_tests by assumption
    | rewrite eq_false_flag by assumption
    | rewrite eq_true_flag by assumption
    | rewrite get_number by assumption
    | rewrite get_text by assumption
    | rewrite len_items by assumption
    | rewrite not_Ok | rewrite and_Ok | rewrite lt_numbers | rewrite gt_numbers
    | rewrite ticket_block by assumption
    | rewrite append_if_when | rewrite guarded_append
    | progress cbv beta zeta
    | rewrite bind_Ok ].
  unfold evaluate, checks. cbn [flat_map].
  unfold triggered, check_tests, check_artifact, check_release,
    check_reviewers, check_shared_infra, check_change, check_ticket,
    check_date, check_wait, check_signoff, check_emergency,
    check_components, check_rollback, check_guardrail.
  fold opt. rewrite app_nil_r, andb_assoc.
  repeat rewrite <- app_assoc. reflexivity.
Qed.

(** On well-typed documents that bring the ticket check to a pattern for
    which the engine raises something else than [re.error], the exception
    leaves [_check_rules]. *)
Lemma check_rules_raises (input_data rules : value) (e : exn) :
  well_typed_rules rules = true ->
  well_typed_input input_data = true ->
  flag rules "require_ticket" = true ->
  text input_data "ticket_id" <> "" ->
  text rules "ticket_pattern" <> "" ->
  re_compile (text rules "ticket_pattern") = Raise e ->
  exn_cls e <> ReError ->
  _check_rules input_data rules = Raise e.
Proof.
  intros Hr Hi Hq Hid Hpat Hc He.
  destruct rules as [| | | | |dr]; try discriminate.
  destruct input_data as [| | | | |di]; try discriminate.
  unfold well_typed_rules, bool_params, int_params, str_params in Hr.
  unfold well_typed_input, bool_fields, int_fields, str_fields in Hi.
  cbn [forallb] in Hr, Hi.
  repeat match goal with
         | H : _ && _ = true |- _ => apply andb_prop in H; destruct H
         end.
  unfold _check_rules.
  repeat first
    [ rewrite truth_flag by assumption
    | rewrite truth_checks_tests by assumption
    | rewrite eq_false_flag by assumption
    | rewrite eq_true_flag by assumption
    | rewrite get_number by assumption
    | rewrite get_text by assumption
    | rewrite len_items by assumption
    | rewrite not_Ok | rewrite and_Ok | rewrite lt_numbers | rewrite gt_numbers
    | rewrite append_if_when | rewrite guarded_append
    | progress cbv beta zeta
    | rewrite bind_Ok ].
  rewrite Hq. rewrite (valid_ticket_raises _ _ e Hid Hpat Hc He).
  reflexivity.
Qed.

Lemma in_evaluate (rules input_data : value) (msg : string) :
  In msg (evaluate rules input_data)
  <-> exists chk, In chk checks /\ chk rules input_data = Some msg.
Proof.
  unfold evaluate. rewrite in_flat_map.
  split; intros [chk [Hin H]]; exists chk; split; auto;
    unfold triggered in *; destruct (chk rules input_data);
    simpl in *; intuition congruence.
Qed.

Lemma when_Some (c : bool) (msg msg' : string) :
  when c msg = Some msg' <-> c = true /\ msg = msg'.
Proof. destruct c; simpl; intuition congruence. Qed.

(** Every result of the [try] block satisfies the invariant of
    [ValidationResult]. *)
Lemma validate_try_invariant
    (check_rules : value -> value -> result (list string))
    (data input_data : value) (r : ValidationResult) :
  validate_try check_rules data input_data = Ok r ->
  allowed r = no_violations r.
Proof.
  unfold validate_try. intros H.
  repeat match goal with
         | H : bind _ _ = Ok _ |- _ =>
             apply bind_Ok_inv in H; destruct H as [? [_ H]]
         | H : (if ?c then _ else _) = Ok _ |- _ => destruct c
         end;
    inversion H; subst; clear H.
  - match goal with |- context [List.length ?l] => now destruct l end.
  - reflexivity.
Qed.

(** With a policy whose environments are a mapping and an event that names an
    environment outside it, the [try] block ends in the [else] branch. *)
Lemma validate_try_unknown
    (check_rules : value -> value -> result (list string))
    (data : value) (d envs : list (string * value)) (name : string) :
  environments_of data = Ok (VDict envs) ->
  match dict_get d "env" with Some v => v | None => VStr "" end = VStr name ->
  dict_get envs name = None ->
  validate_try check_rules data (VDict d)
  = Ok (unknown_environment (VDict d) name).
Proof.
  unfold environments_of, validate_try. intros He Hn Hk.
  cbn [py_get]. rewrite bind_Ok, Hn.
  destruct (py_get data "policy" (VDict [])) as [policy|]; [|discriminate].
  cbn [bind] in He |- *. rewrite He. cbn [bind py_in hashable].
  rewrite Hk. reflexivity.
Qed.

(** [_check_rules] does not read the [env] field. *)
Lemma check_rules_ignores_env (d : list (string * value)) (v rules : value) :
  _check_rules (VDict (("env", v) :: d)) rules = _check_rules (VDict d) rules.
Proof. reflexivity. Qed.

(** Two events with the same environment name and the same outcome of the
    checks get the same verdict. *)
Lemma validate_same_env
    (check_rules : value -> value -> result (list string))
    (data i1 i2 : value) :
  py_get i1 "env" (VStr "") = py_get i2 "env" (VStr "") ->
  (forall rules, check_rules i1 rules = check_rules i2 rules) ->
  violations (validate_input_with check_rules data i1)
  = violations (validate_input_with check_rules data i2)
  /\ allowed (validate_input_with check_rules data i1)
     = allowed (validate_input_with check_rules data i2).
Proof.
  intros He Hc. unfold validate_input_with, validate_try. rewrite He.
  destruct (py_get i2 "env" (VStr "")) as [env|]; cbn [bind]; [|auto].
  destruct (py_get data "policy" (VDict [])) as [policy|]; cbn [bind]; [|auto].
  destruct (py_get policy "environments" (VDict [])) as [envs|];
    cbn [bind]; [|auto].
  destruct (py_in env envs) as [[]|]; cbn [bind]; [|auto|auto].
  destruct (py_getitem data (VStr "policy")) as [p|]; cbn [bind]; [|auto].
  destruct (py_getitem p (VStr "environments")) as [es|]; cbn [bind]; [|auto].
  destruct (py_getitem es env) as [e|]; cbn [bind]; [|auto].
  destruct (py_getitem e (VStr "rules")) as [rules|]; cbn [bind]; [|auto].
  rewrite Hc. destruct (check_rules i2 rules); cbn [bind]; auto.
Qed.
End Refinement.

(** ** Properties of the validator *)

Ltac split_checks H :=
  let chk := fresh "chk" in
  let Hin := fresh "Hin" in
  apply in_evaluate in H; destruct H as [chk [Hin H]];
  unfold checks in Hin; simpl in Hin;
  repeat (destruct Hin as [<- | Hin]); [.. | contradiction].

Ltac read_check H Hc :=
  unfold check_tests, check_artifact, check_release, check_reviewers,
    check_shared_infra, check_change, check_ticket, check_date, check_wait,
    check_signoff, check_emergency, check_components, check_rollback,
    check_guardrail in H;
  apply when_Some in H; destruct H as [Hc H];
  unfold reviewers_message, ticket_message, wait_message,
    guardrail_message in H;
  cbn [String.append] in H.

Section Properties.
Context {RE : ReModule}.

(** C1: whatever the policy document and the input event, the result of
    [validate_input] has [allowed] equal to the emptiness of [violations]:
    when the environment resolves, when it does not, and when an exception
    is caught. *)
Theorem allowed_iff_no_violations (data input_data : value) :
  allowed (validate_input data input_data)
  = no_violations (validate_input data input_data).
Proof.
  unfold validate_input, validate_input_with.
  destruct (validate_try _check_rules data input_data) as [r|e] eqn:H.
  - exact (validate_try_invariant _ _ _ _ H).
  - reflexivity.
Qed.

(** C2: an event whose declared environment name is not a key of the
    policy's environments mapping is denied with the single violation
    "Unknown environment: name", and the rule checks are not evaluated: the
    result is the same whatever the method behind [_check_rules] would do. *)
Theorem unknown_environment_denied
    (data : value) (d envs : list (string * value)) (name : string) :
  environments_of data = Ok (VDict envs) ->
  dict_get d "env" = Some (VStr name) ->
  dict_get envs name = None ->
  validate_input data (VDict d) = unknown_environment (VDict d) name
  /\ forall check_rules,
       validate_input_with check_rules data (VDict d)
       = unknown_environment (VDict d) name.
Proof.
  intros He Hn Hk.
  assert (H : forall check_rules,
             validate_input_with check_rules data (VDict d)
             = unknown_environment (VDict d) name).
  { intros check_rules. unfold validate_input_with.
    rewrite (validate_try_unknown check_rules data d envs name He); auto.
    now rewrite Hn. }
  split; [apply H | exact H].
Qed.

(** Where the ticket pattern is handled: on such well-typed documents
    [_check_rules] returns exactly the messages of the triggered checks among
    the fourteen, each check being applied whatever the earlier ones gave,
    in the order of the checks. *)
Lemma check_rules_all_in_order (input_data rules : value) :
  well_typed_rules rules = true ->
  well_typed_input input_data = true ->
  ticket_handled rules input_data = true ->
  _check_rules input_data rules
  = Ok (flat_map (fun chk => opt (chk rules input_data)) checks)
  /\ List.length checks = 14%nat
  /\ forall msg,
       In msg (flat_map (fun chk => opt (chk rules input_data)) checks)
       <-> exists chk, In chk checks /\ chk rules input_data = Some msg.
Proof.
  intros Hr Hi Hk. split; [|split].
  - now apply check_rules_typed.
  - reflexivity.
  - intros msg. apply in_evaluate.
Qed.

(** The cases of [_valid_ticket]: false for an empty or absent id whatever
    the pattern; true for a non-empty id when the pattern is empty or absent;
    otherwise true exactly when the compiled pattern has a match that starts
    at position 0 of the id, wherever it ends; and false when the engine
    rejects the pattern with [re.error]. *)
Lemma valid_ticket_cases (id pattern : string) :
  (forall p : value,
      _valid_ticket (VStr "") p = Ok false /\ _valid_ticket VNone p = Ok false)
  /\ (id <> "" ->
      _valid_ticket (VStr id) (VStr "") = Ok true
      /\ _valid_ticket (VStr id) VNone = Ok true)
  /\ (id <> "" -> pattern <> "" ->
      forall p, re_compile pattern = Ok p ->
      exists b,
        _valid_ticket (VStr id) (VStr pattern) = Ok b
        /\ (b = true
            <-> exists j, (j <= String.length id)%nat
                          /\ re_span p id 0 j = true))
  /\ (id <> "" -> pattern <> "" ->
      forall e, re_compile pattern = Raise e -> exn_cls e = ReError ->
      _valid_ticket (VStr id) (VStr pattern) = Ok false).
Proof.
  assert (Hne : forall s, s <> "" -> String.eqb s "" = false)
    by (intros s Hs; now apply String.eqb_neq).
  split; [|split; [|split]].
  - intros p. split; reflexivity.
  - intros Hid. unfold _valid_ticket. cbn [truthy]. rewrite (Hne _ Hid).
    split; reflexivity.
  - intros Hid Hpat p Hc. exists (pattern_match p id). split.
    + unfold _valid_ticket. cbn [truthy re_match].
      rewrite (Hne _ Hid), (Hne _ Hpat), Hc. reflexivity.
    + apply pattern_match_spec.
  - intros Hid Hpat e Hc He. unfold _valid_ticket. cbn [truthy re_match].
    rewrite (Hne _ Hid), (Hne _ Hpat), Hc. cbn [negb bind try_except].
    now rewrite He.
Qed.

(** Where the ticket pattern is handled, so that [_check_rules] returns: on
    such well-typed documents an emergency event never gets the violation
    "Rule#5: missing required sign-off", whatever its [signed_off] and the
    rule's; and it gets "Rule#5: emergency path requires
    retrospective_signoff enabled" exactly when [retrospective_signoff] is
    present and false. *)
Lemma emergency_signoff (input_data rules : value) :
  well_typed_rules rules = true ->
  well_typed_input input_data = true ->
  ticket_handled rules input_data = true ->
  flag input_data "is_emergency" = true ->
  exists vs,
    _check_rules input_data rules = Ok vs
    /\ ~ In "Rule#5: missing required sign-off" vs
    /\ (In "Rule#5: emergency path requires retrospective_signoff enabled" vs
        <-> tristate rules "retrospective_signoff" = Some false).
Proof.
  intros Hr Hi Hk He. exists (evaluate rules input_data).
  split; [now apply check_rules_typed|]. split.
  - intros H. split_checks H; read_check H Hc; try discriminate H.
    rewrite He in Hc. rewrite andb_false_r in Hc. discriminate.
  - split.
    + intros H. split_checks H; read_check H Hc; try discriminate H.
      apply andb_prop in Hc. destruct Hc as [_ Hc].
      unfold explicitly_false in Hc.
      destruct (tristate rules "retrospective_signoff") as [[]|];
        congruence.
    + intros Ht. apply in_evaluate. exists check_emergency. split.
      * simpl. tauto.
      * unfold check_emergency, explicitly_false. now rewrite He, Ht.
Qed.

(** Where the ticket pattern is handled, so that [_check_rules] returns: on
    such well-typed documents the violation "Rule#2: production cannot run on
    shared infra (except core)" is produced exactly when
    [shared_infra_except_core] is present and false and the event has
    [shared_infra] true; with the parameter absent or true it is not
    produced. *)
Lemma shared_infra_violation (input_data rules : value) :
  well_typed_rules rules = true ->
  well_typed_input input_data = true ->
  ticket_handled rules input_data = true ->
  exists vs,
    _check_rules input_data rules = Ok vs
    /\ (In "Rule#2: production cannot run on shared infra (except core)" vs
        <-> tristate rules "shared_infra_except_core" = Some false
            /\ flag input_data "shared_infra" = true)
    /\ (tristate rules "shared_infra_except_core" <> Some false ->
        ~ In "Rule#2: production cannot run on shared infra (except core)" vs).
Proof.
  intros Hr Hi Hk. exists (evaluate rules input_data).
  split; [now apply check_rules_typed|].
  assert (H1 : In "Rule#2: production cannot run on shared infra (except core)"
                  (evaluate rules input_data)
               <-> tristate rules "shared_infra_except_core" = Some false
                   /\ flag input_data "shared_infra" = true).
  { split.
    - intros H. split_checks H; read_check H Hc; try discriminate H.
      apply andb_prop in Hc. destruct Hc as [Hc1 Hc2]. split; [|exact Hc2].
      unfold explicitly_false in Hc1.
      destruct (tristate rules "shared_infra_except_core") as [[]|];
        congruence.
    - intros [Ht Hs]. apply in_evaluate. exists check_shared_infra. split.
      + simpl. tauto.
      + unfold check_shared_infra, explicitly_false. now rewrite Ht, Hs. }
  split; [exact H1|].
  intros Hn H. apply H1 in H. tauto.
Qed.

(** Where the ticket pattern is handled, so that [_check_rules] returns: on
    such well-typed documents the deployment-rate violation is produced
    exactly when [max_deployments_per_day] is positive and
    [deployments_today] is strictly greater than it. *)
Lemma deployment_guardrail (input_data rules : value) :
  well_typed_rules rules = true ->
  well_typed_input input_data = true ->
  ticket_handled rules input_data = true ->
  exists vs,
    _check_rules input_data rules = Ok vs
    /\ (In (guardrail_message (number input_data "deployments_today")
                              (number rules "max_deployments_per_day")) vs
        <-> 0 < number rules "max_deployments_per_day"
            /\ number rules "max_deployments_per_day"
               < number input_data "deployments_today")
    /\ ((exists today limit, In (guardrail_message today limit) vs)
        -> 0 < number rules "max_deployments_per_day"
           /\ number rules "max_deployments_per_day"
              < number input_data "deployments_today").
Proof.
  intros Hr Hi Hk. exists (evaluate rules input_data).
  split; [now apply check_rules_typed|].
  assert (H2 : (exists today limit,
                   In (guardrail_message today limit)
                      (evaluate rules input_data))
               -> 0 < number rules "max_deployments_per_day"
                  /\ number rules "max_deployments_per_day"
                     < number input_data "deployments_today").
  { intros [today [limit H]]. unfold guardrail_message in H.
    cbn [String.append] in H.
    split_checks H; read_check H Hc; try discriminate H.
    apply andb_prop in Hc. destruct Hc as [Hc1 Hc2].
    apply Z.gtb_lt in Hc1, Hc2. now split. }
  split; [split|exact H2].
  - intros H. apply H2. eauto.
  - intros [Hp Hg]. apply in_evaluate. exists check_guardrail. split.
    + simpl. tauto.
    + unfold check_guardrail.
      apply Z.gtb_lt in Hp, Hg. now rewrite Hp, Hg.
Qed.

(** C8: with every recognized parameter absent from the rule set, every
    input event gets an empty violation list. *)
Theorem no_parameters_no_violations (di dr : list (string * value)) :
  (forall k, In k recognized_params -> dict_get dr k = None) ->
  _check_rules (VDict di) (VDict dr) = Ok [].
Proof.
  intros H.
  assert (Hk : Forall (fun k => dict_get dr k = None) recognized_params)
    by (apply Forall_forall; exact H).
  unfold recognized_params, bool_params, int_params, str_params in Hk.
  cbn [app] in Hk.
  repeat match goal with
         | H : Forall _ (_ :: _) |- _ => inversion H; subst; clear H
         end.
  unfold _check_rules. cbn [py_get].
  repeat match goal with
         | H : dict_get dr _ = None |- _ => rewrite H; clear H
         end.
  cbn.
  destruct (truthy _); reflexivity.
Qed.

(** On well-typed documents whose ticket pattern is handled, [_check_rules]
    returns a list and every element of it is the message of a check; a
    pattern rejected with [re.error] makes the ticket check yield its
    violation. *)
Lemma check_rules_returns (input_data rules : value) :
  well_typed_rules rules = true ->
  well_typed_input input_data = true ->
  ticket_handled rules input_data = true ->
  exists vs,
    _check_rules input_data rules = Ok vs
    /\ (forall msg, In msg vs ->
          exists chk, In chk checks /\ chk rules input_data = Some msg)
    /\ (forall e,
          flag rules "require_ticket" = true ->
          text input_data "ticket_id" <> "" ->
          text rules "ticket_pattern" <> "" ->
          re_compile (text rules "ticket_pattern") = Raise e ->
          In (ticket_message (text rules "ticket_pattern")) vs).
Proof.
  intros Hr Hi Hk. exists (evaluate rules input_data).
  split; [now apply check_rules_typed|]. split.
  - intros msg. apply in_evaluate.
  - intros e Hq Hid Hpat Hc. apply in_evaluate. exists check_ticket. split.
    + simpl. tauto.
    + unfold check_ticket, validTicket. rewrite Hq, Hc.
      apply String.eqb_neq in Hid, Hpat. now rewrite Hid, Hpat.
Qed.

(** C10: an event without the [env] field is validated under the empty
    environment name: it gets the violations and the verdict of the same
    event with [env] set to the empty string; and unless the empty string is
    a key of the policy's environments mapping, it is denied with the single
    violation "Unknown environment: " and the rule checks are not
    evaluated. *)
Theorem missing_env_is_empty_name (data : value) (d : list (string * value)) :
  dict_get d "env" = None ->
  (violations (validate_input data (VDict d))
   = violations (validate_input data (VDict (("env", VStr "") :: d)))
   /\ allowed (validate_input data (VDict d))
      = allowed (validate_input data (VDict (("env", VStr "") :: d))))
  /\ forall envs,
       environments_of data = Ok (VDict envs) ->
       dict_get envs "" = None ->
       validate_input data (VDict d) = unknown_environment (VDict d) ""
       /\ forall check_rules,
            validate_input_with check_rules data (VDict d)
            = unknown_environment (VDict d) "".
Proof.
  intros Hn. split.
  - apply validate_same_env.
    + cbn [py_get dict_get String.eqb]. now rewrite Hn.
    + intros rules. symmetry. apply check_rules_ignores_env.
  - intros envs He Hk.
    assert (H : forall check_rules,
               validate_input_with check_rules data (VDict d)
               = unknown_environment (VDict d) "").
    { intros check_rules. unfold validate_input_with.
      rewrite (validate_try_unknown check_rules data d envs "" He); auto.
      now rewrite Hn. }
    split; [apply H | exact H].
Qed.
End Properties.

(** ** The properties on the sample documents *)

Lemma unknown_environment_denied_witness :
  environments_of sample_policy = Ok (VDict prod_environments)
  /\ dict_get prod_environments "staging" = None
  /\ @validate_input MiniRe.engine sample_policy staging_event
     = unknown_environment staging_event "staging".
Proof.
  split; [reflexivity | split; [reflexivity|]].
  apply (@unknown_environment_denied MiniRe.engine sample_policy
           [("env", VStr "staging"); ("deployments_today", VInt 4)]
           prod_environments "staging"); reflexivity.
Defined.

Lemma check_rules_all_in_order_witness :
  well_typed_rules prod_rules = true
  /\ well_typed_input emergency_event = true
  /\ @_check_rules MiniRe.engine emergency_event prod_rules
     = Ok (flat_map (fun chk => opt (chk prod_rules emergency_event))
                    (@checks MiniRe.engine)).
Proof.
  split; [reflexivity | split; [reflexivity|]].
  apply (@check_rules_all_in_order MiniRe.engine emergency_event prod_rules);
    [reflexivity | reflexivity | reflexivity].
Defined.

Lemma emergency_signoff_witness :
  flag emergency_event "is_emergency" = true
  /\ exists vs,
       @_check_rules MiniRe.engine emergency_event prod_rules = Ok vs
       /\ ~ In "Rule#5: missing required sign-off" vs
       /\ (In "Rule#5: emergency path requires retrospective_signoff enabled"
              vs
           <-> tristate prod_rules "retrospective_signoff" = Some false).
Proof.
  split; [reflexivity|].
  apply (@emergency_signoff MiniRe.engine emergency_event prod_rules);
    [reflexivity | reflexivity | reflexivity | reflexivity].
Defined.

Lemma shared_infra_violation_witness :
  well_typed_rules prod_rules = true
  /\ well_typed_input emergency_event = true
  /\ exists vs,
       @_check_rules MiniRe.engine emergency_event prod_rules = Ok vs
       /\ (In "Rule#2: production cannot run on shared infra (except core)" vs
           <-> tristate prod_rules "shared_infra_except_core" = Some false
               /\ flag emergency_event "shared_infra" = true)
       /\ (tristate prod_rules "shared_infra_except_core" <> Some false ->
           ~ In "Rule#2: production cannot run on shared infra (except core)"
                vs).
Proof.
  split; [reflexivity | split; [reflexivity|]].
  apply (@shared_infra_violation MiniRe.engine emergency_event prod_rules);
    [reflexivity | reflexivity | reflexivity].
Defined.

Lemma deployment_guardrail_witness :
  number prod_rules "max_deployments_per_day" = 3
  /\ number emergency_event "deployments_today" = 4
  /\ exists vs,
       @_check_rules MiniRe.engine emergency_event prod_rules = Ok vs
       /\ (In (guardrail_message (number emergency_event "deployments_today")
                 (number prod_rules "max_deployments_per_day")) vs
           <-> 0 < number prod_rules "max_deployments_per_day"
               /\ number prod_rules "max_deployments_per_day"
                  < number emergency_event "deployments_today")
       /\ ((exists today limit, In (guardrail_message today limit) vs)
           -> 0 < number prod_rules "max_deployments_per_day"
              /\ number prod_rules "max_deployments_per_day"
                 < number emergency_event "deployments_today").
Proof.
  split; [reflexivity | split; [reflexivity|]].
  apply (@deployment_guardrail MiniRe.engine emergency_event prod_rules);
    [reflexivity | reflexivity | reflexivity].
Defined.

Lemma no_parameters_no_violations_witness :
  @_check_rules MiniRe.engine anonymous_event
    (VDict [("owner", VStr "platform")]) = Ok [].
Proof.
  apply (@no_parameters_no_violations MiniRe.engine
           [("ticket_id", VStr "JIRA-7"); ("approvers", VNone)]
           [("owner", VStr "platform")]).
  intros k Hin. unfold recognized_params in Hin. simpl in Hin.
  repeat (destruct Hin as [<- | Hin]; [reflexivity|]).
  contradiction.
Defined.

Lemma missing_env_is_empty_name_witness :
  dict_get prod_environments "" = None
  /\ @validate_input MiniRe.engine sample_policy anonymous_event
     = unknown_environment anonymous_event ""
  /\ violations (@validate_input MiniRe.engine sample_policy anonymous_event)
     = violations
         (@validate_input MiniRe.engine sample_policy
            (VDict [("env", VStr ""); ("ticket_id", VStr "JIRA-7");
                    ("approvers", VNone)])).
Proof.
  split; [reflexivity|].
  destruct (@missing_env_is_empty_name MiniRe.engine sample_policy
              [("ticket_id", VStr "JIRA-7"); ("approvers", VNone)] eq_refl)
    as [[H1 _] H2].
  destruct (H2 prod_environments eq_refl eq_refl) as [H3 _].
  split; [exact H3 | exact H1].
Defined.

(** *** The validator at work *)

Example valid_ticket_cases_sample :
  @_valid_ticket MiniRe.engine (VStr "JIRA-123") (VStr "") = Ok true
  /\ (exists b,
        @_valid_ticket MiniRe.engine (VStr "JIRA-123") (VStr "JIRA-\d") = Ok b
        /\ (b = true
            <-> exists j, (j <= 8)%nat
                          /\ MiniRe.span
                               (MiniRe.Seq (MiniRe.Chr "J")
                                  (MiniRe.Seq (MiniRe.Chr "I")
                                     (MiniRe.Seq (MiniRe.Chr "R")
                                        (MiniRe.Seq (MiniRe.Chr "A")
                                           (MiniRe.Seq (MiniRe.Chr "-")
                                              (MiniRe.Seq MiniRe.Digit
                                                 MiniRe.Eps))))))
                               "JIRA-123" 0 j = true))
  /\ @_valid_ticket MiniRe.engine (VStr "JIRA-123") (VStr "(JIRA") = Ok false.
Proof.
  assert (Hid : "JIRA-123" <> "") by discriminate.
  split; [|split].
  - apply (@valid_ticket_cases MiniRe.engine "JIRA-123" "").
    exact Hid.
  - apply (@valid_ticket_cases MiniRe.engine "JIRA-123" "JIRA-\d");
      [exact Hid | discriminate | reflexivity].
  - apply (@valid_ticket_cases MiniRe.engine "JIRA-123" "(JIRA")
      with (e := Exn ReError "missing ), unterminated subpattern");
      [exact Hid | discriminate | reflexivity | reflexivity].
Qed.


(** The three ways out of [validate_input]: the environment resolves, it does
    not, an exception is caught. *)
Example resolved_branch :
  violations (@validate_input MiniRe.engine sample_policy emergency_event)
  = ["Rule#1: at least 2 approvers required (got 1)";
     "Rule#2: production cannot run on shared infra (except core)";
     "Rule#3: ticket id invalid/missing (pattern ^JIRA-\d+$)";
     "Rule#5: emergency path requires retrospective_signoff enabled";
     "Max deployments per day exceeded (4 > 3)"]
  /\ allowed (@validate_input MiniRe.engine sample_policy emergency_event)
     = false.
Proof. vm_compute. auto. Qed.

Example unknown_branch :
  @validate_input MiniRe.engine sample_policy staging_event
  = {| allowed := false;
       violations := ["Unknown environment: staging"];
       input := staging_event;
       timestamp := Some "2025-01-18T16:00:00Z";
       error := None |}.
Proof. reflexivity. Qed.

Example exception_branch :
  @validate_input MiniRe.engine sample_policy
    (VDict [("env", VStr "prod"); ("approvers", VNone)])
  = {| allowed := false;
       violations :=
         ["Validation error: object of type 'NoneType' has no len()"];
       input := VDict [("env", VStr "prod"); ("approvers", VNone)];
       timestamp := None;
       error := Some true |}.
Proof. vm_compute. reflexivity. Qed.

(** A match at the start is enough, a match of the whole id is not needed, a
    match further on does not count. *)
Example prefix_not_fullmatch :
  @_valid_ticket MiniRe.engine (VStr "JIRA-1x") (VStr "JIRA-\d+") = Ok true
  /\ @pattern_fullmatch MiniRe.engine
       (MiniRe.Seq (MiniRe.Chr "J") MiniRe.Eps) "JIRA-1x" = false.
Proof. vm_compute. auto. Qed.

Example prefix_not_search :
  @_valid_ticket MiniRe.engine (VStr "xJIRA-1") (VStr "JIRA") = Ok false
  /\ (exists p, @re_compile MiniRe.engine "JIRA" = Ok p
                /\ @pattern_search MiniRe.engine p "xJIRA-1" = true).
Proof. split; [vm_compute; reflexivity | eexists; split; reflexivity]. Qed.

Example ticket_pattern_scenario :
  @_valid_ticket MiniRe.engine (VStr "JIRA-123") (VStr "^JIRA-\d+$") = Ok true
  /\ @_valid_ticket MiniRe.engine (VStr "TICKET-1") (VStr "^JIRA-\d+$")
     = Ok false.
Proof. vm_compute. auto. Qed.

(** A pattern that the engine rejects with [re.error] counts as a failed
    validation. *)
Example malformed_pattern_scenario :
  @_check_rules MiniRe.engine emergency_event broken_rules
  = Ok ["Rule#3: ticket id invalid/missing (pattern (JIRA)"].
Proof. vm_compute. reflexivity. Qed.

(** ** Exceptions of the engine that [_valid_ticket] does not handle

    CPython's parser raises [OverflowError], which is not [re.error], when a
    repetition count reaches [MAXREPEAT]. *)

(** C4: for the id "x" and the pattern "a{4294967295}" the pattern does not
    compile, and [_valid_ticket] does not return false: the [OverflowError]
    of the parser passes its [except re.error] handler. *)
Theorem valid_ticket_overflow :
  @re_compile MiniRe.engine "a{4294967295}"
  = Raise (Exn OverflowError "the repetition number is too large")
  /\ @_valid_ticket MiniRe.engine (VStr "x") (VStr "a{4294967295}")
     = Raise (Exn OverflowError "the repetition number is too large").
Proof. split; vm_compute; reflexivity. Qed.

(** C9: the rule set with [require_ticket] and the pattern "a{4294967295}"
    and the event with the ticket id "x" are well-typed, and [_check_rules]
    raises on them; [validate_input] reports the exception as a validation
    error. *)
Theorem check_rules_overflow :
  well_typed_rules overflow_rules = true
  /\ well_typed_input ticket_event = true
  /\ @_check_rules MiniRe.engine ticket_event overflow_rules
     = Raise (Exn OverflowError "the repetition number is too large")
  /\ @validate_input MiniRe.engine overflow_policy ticket_event
     = validation_error ticket_event
         (Exn OverflowError "the repetition number is too large").
Proof. repeat split; vm_compute; reflexivity. Qed.

(** C3: the rule set [guarded_rules] and the event [rush_event] are
    well-typed and five of the fourteen checks trigger on them: the reviewer
    and shared-infra checks, the ticket check, and after it the
    retrospective sign-off and deployment-rate checks.  [_check_rules] does
    not return their messages: the exception of the ticket check leaves it,
    so that the checks after the ticket check are not applied and the
    messages collected before it are lost; [validate_input] reports one
    validation error. *)
Theorem checks_cut_short :
  well_typed_rules guarded_rules = true
  /\ well_typed_input rush_event = true
  /\ flat_map (fun chk => opt (chk guarded_rules rush_event))
              (@checks MiniRe.engine)
     = ["Rule#1: at least 2 approvers required (got 1)";
        "Rule#2: production cannot run on shared infra (except core)";
        "Rule#3: ticket id invalid/missing (pattern a{4294967295})";
        "Rule#5: emergency path requires retrospective_signoff enabled";
        "Max deployments per day exceeded (4 > 3)"]
  /\ @_check_rules MiniRe.engine rush_event guarded_rules
     = Raise (Exn OverflowError "the repetition number is too large")
  /\ @validate_input MiniRe.engine guarded_policy rush_event
     = validation_error rush_event
         (Exn OverflowError "the repetition number is too large").
Proof. repeat split; vm_compute; reflexivity. Qed.

(** C5: [rush_event] is an emergency event and [guarded_rules] has
    [retrospective_signoff] present and false, on well-typed documents, yet
    the violation "Rule#5: emergency path requires retrospective_signoff
    enabled" is not produced: [_check_rules] raises at the ticket check,
    before the sign-off checks, and the only violation of the result is the
    validation error. *)
Theorem emergency_signoff_overflow :
  well_typed_rules guarded_rules = true
  /\ well_typed_input rush_event = true
  /\ flag rush_event "is_emergency" = true
  /\ tristate guarded_rules "retrospective_signoff" = Some false
  /\ @check_emergency guarded_rules rush_event
     = Some "Rule#5: emergency path requires retrospective_signoff enabled"
  /\ @_check_rules MiniRe.engine rush_event guarded_rules
     = Raise (Exn OverflowError "the repetition number is too large")
  /\ violations (@validate_input MiniRe.engine guarded_policy rush_event)
     = ["Validation error: the repetition number is too large"].
Proof. repeat split; vm_compute; reflexivity. Qed.

(** C6: [guarded_rules] has [shared_infra_except_core] present and false and
    [rush_event] has [shared_infra] true, on well-typed documents, yet the
    violation "Rule#2: production cannot run on shared infra (except core)"
    is not produced: it is appended and then lost when [_check_rules] raises
    at the ticket check, and the only violation of the result is the
    validation error. *)
Theorem shared_infra_overflow :
  well_typed_rules guarded_rules = true
  /\ well_typed_input rush_event = true
  /\ tristate guarded_rules "shared_infra_except_core" = Some false
  /\ flag rush_event "shared_infra" = true
  /\ @check_shared_infra guarded_rules rush_event
     = Some "Rule#2: production cannot run on shared infra (except core)"
  /\ @_check_rules MiniRe.engine rush_event guarded_rules
     = Raise (Exn OverflowError "the repetition number is too large")
  /\ violations (@validate_input MiniRe.engine guarded_policy rush_event)
     = ["Validation error: the repetition number is too large"].
Proof. repeat split; vm_compute; reflexivity. Qed.

(** C7: [guarded_rules] allows 3 deployments per day and [rush_event] makes
    4, on well-typed documents, yet the violation "Max deployments per day
    exceeded (4 > 3)" is not produced: [_check_rules] raises at the ticket
    check and never reaches the guardrail, and the only violation of the
    result is the validation error. *)
Theorem deployment_guardrail_overflow :
  well_typed_rules guarded_rules = true
  /\ well_typed_input rush_event = true
  /\ number guarded_rules "max_deployments_per_day" = 3
  /\ number rush_event "deployments_today" = 4
  /\ @check_guardrail guarded_rules rush_event
     = Some "Max deployments per day exceeded (4 > 3)"
  /\ @_check_rules MiniRe.engine rush_event guarded_rules
     = Raise (Exn OverflowError "the repetition number is too large")
  /\ violations (@validate_input MiniRe.engine guarded_policy rush_event)
     = ["Validation error: the repetition number is too large"].
Proof. repeat split; vm_compute; reflexivity. Qed.

(** The same for any engine: whatever it raises besides [re.error] leaves
    [_valid_ticket] and [_check_rules]. *)
Example unhandled_exception_leaves :
  @_check_rules MiniRe.engine ticket_event overflow_rules
  = Raise (Exn OverflowError "the repetition number is too large").
Proof.
  apply (@check_rules_raises MiniRe.engine ticket_event overflow_rules);
    [reflexivity | reflexivity | reflexivity | discriminate | discriminate
    | reflexivity | discriminate].
Qed.

(** ** Further properties of the validator *)

Lemma dict_get_agree_cons (d : list (string * value)) (k f : string) (v : value) :
  String.eqb f k = false -> dict_get ((k, v) :: d) f = dict_get d f.
Proof. intros H. simpl. now rewrite H. Qed.

Section ValidatorProperties.
Context {RE : ReModule}.

(** The verdict is closed on failure: a result is [allowed] only when the
    environment of the event was found in the policy, its rules were read
    and [_check_rules] returned the empty list; then there is no violation
    and no error mark. *)
Theorem allowed_means_checks_passed (data input_data : value) :
  allowed (validate_input data input_data) = true ->
  violations (validate_input data input_data) = []
  /\ error (validate_input data input_data) = None
  /\ exists env envs rules,
       py_get input_data "env" (VStr "") = Ok env
       /\ environments_of data = Ok envs
       /\ py_in env envs = Ok true
       /\ rules_of data env = Ok rules
       /\ _check_rules input_data rules = Ok [].
Proof.
  unfold validate_input, validate_input_with, validate_try.
  destruct (py_get input_data "env" (VStr "")) as [env|] eqn:E1; cbn [bind];
    [|discriminate].
  destruct (py_get data "policy" (VDict [])) as [policy|] eqn:E2; cbn [bind];
    [|discriminate].
  destruct (py_get policy "environments" (VDict [])) as [envs|] eqn:E3;
    cbn [bind]; [|discriminate].
  destruct (py_in env envs) as [[]|] eqn:E4; cbn [bind]; try discriminate.
  destruct (py_getitem data (VStr "policy")) as [p|] eqn:E5; cbn [bind];
    [|discriminate].
  destruct (py_getitem p (VStr "environments")) as [es|] eqn:E6; cbn [bind];
    [|discriminate].
  destruct (py_getitem es env) as [e|] eqn:E7; cbn [bind]; [|discriminate].
  destruct (py_getitem e (VStr "rules")) as [rules|] eqn:E8; cbn [bind];
    [|discriminate].
  destruct (_check_rules input_data rules) as [vs|] eqn:E9; cbn [bind];
    [|discriminate].
  cbn [allowed violations error]. destruct vs as [|v vs]; [|discriminate].
  intros _. split; [reflexivity|]. split; [reflexivity|].
  exists env, envs, rules. unfold environments_of, rules_of.
  rewrite E2, E5. cbn [bind]. rewrite E3, E6. cbn [bind]. rewrite E7.
  cbn [bind]. auto.
Qed.

(** Every result echoes the event it was computed for; it carries either the
    fixed timestamp and no error mark, or the error mark, no timestamp, a
    denial and the single message of the exception. *)
Theorem result_shape (data input_data : value) :
  input (validate_input data input_data) = input_data
  /\ ((error (validate_input data input_data) = None
       /\ timestamp (validate_input data input_data)
          = Some "2025-01-18T16:00:00Z")
      \/ (error (validate_input data input_data) = Some true
          /\ timestamp (validate_input data input_data) = None
          /\ allowed (validate_input data input_data) = false
          /\ exists e,
               validate_try _check_rules data input_data = Raise e
               /\ violations (validate_input data input_data)
                  = ["Validation error: " ++ exn_msg e])).
Proof.
  unfold validate_input, validate_input_with.
  destruct (validate_try _check_rules data input_data) as [r|e] eqn:H.
  - unfold validate_try in H.
    repeat match goal with
           | H : bind _ _ = Ok _ |- _ =>
               apply bind_Ok_inv in H; destruct H as [? [_ H]]
           | H : (if ?c then _ else _) = Ok _ |- _ => destruct c
           end;
      inversion H; subst; clear H; cbn; auto.
  - cbn. split; [reflexivity|]. right. repeat split; eauto.
Qed.

(** When the policy maps the event's environment to a rule set and the
    documents are well-typed, the result carries the violations of that
    rule set, in the order of the checks, and allows the event exactly when
    there is none. *)
Theorem resolved_environment_verdict
    (dd pd envs ed d : list (string * value)) (name : string) (rules : value) :
  dict_get dd "policy" = Some (VDict pd) ->
  dict_get pd "environments" = Some (VDict envs) ->
  dict_get envs name = Some (VDict ed) ->
  dict_get ed "rules" = Some rules ->
  dict_get d "env" = Some (VStr name) ->
  well_typed_rules rules = true ->
  well_typed_input (VDict d) = true ->
  ticket_handled rules (VDict d) = true ->
  validate_input (VDict dd) (VDict d)
  = {| allowed := match evaluate rules (VDict d) with [] => true | _ => false end;
       violations := evaluate rules (VDict d);
       input := VDict d;
       timestamp := Some "2025-01-18T16:00:00Z";
       error := None |}.
Proof.
  intros Hp He Hn Hr Hd Wr Wi Ht.
  unfold validate_input, validate_input_with, validate_try.
  repeat (cbn [py_get py_getitem py_in hashable bind];
          rewrite ?Hd, ?Hp, ?He, ?Hn, ?Hr).
  rewrite (check_rules_typed _ _ Wr Wi Ht). cbn [bind input timestamp error].
  f_equal. now destruct (evaluate rules (VDict d)).
Qed.

(** An environment name that can be hashed and is not a key of the
    environments mapping is unknown, whatever its type: the message shows
    its [str]. *)
Lemma validate_unknown_value
    (check_rules : value -> value -> result (list string))
    (data : value) (d envs : list (string * value)) (v : value) :
  environments_of data = Ok (VDict envs) ->
  match dict_get d "env" with Some v' => v' | None => VStr "" end = v ->
  hashable v = true ->
  match v with VStr k => dict_get envs k = None | _ => True end ->
  validate_input_with check_rules data (VDict d)
  = unknown_environment (VDict d) (py_str v).
Proof.
  unfold environments_of, validate_input_with, validate_try.
  intros He Hv Hh Hk. cbn [py_get]. rewrite bind_Ok, Hv.
  destruct (py_get data "policy" (VDict [])) as [policy|]; [|discriminate].
  cbn [bind] in He |- *. rewrite He. cbn [bind py_in]. rewrite Hh.
  destruct v; try reflexivity. now rewrite Hk.
Qed.

(** An [env] that is present and is not a string, but null, a boolean or a
    number, is never found in the policy: the event is denied as an unknown
    environment named by the [str] of the value, and no check runs. *)
Theorem non_string_env_unknown
    (data : value) (d envs : list (string * value)) (v : value) :
  environments_of data = Ok (VDict envs) ->
  dict_get d "env" = Some v ->
  is_str v = false ->
  hashable v = true ->
  forall check_rules,
    validate_input_with check_rules data (VDict d)
    = unknown_environment (VDict d) (py_repr v).
Proof.
  intros He Hd Hs Hh check_rules.
  rewrite (validate_unknown_value check_rules data d envs v He);
    [| now rewrite Hd | exact Hh | now destruct v].
  now destruct v.
Qed.

(** A validator whose data has no [policy] key, as after a construction
    without a data file, or whose policy has no [environments] key, knows no
    environment: every event with a string for [env], or without [env], is
    denied as an unknown environment. *)
Theorem no_policy_no_environment
    (dd d : list (string * value)) (name : string) :
  (dict_get dd "policy" = None
   \/ exists pd, dict_get dd "policy" = Some (VDict pd)
                 /\ dict_get pd "environments" = None) ->
  match dict_get d "env" with Some v => v | None => VStr "" end = VStr name ->
  forall check_rules,
    validate_input_with check_rules (VDict dd) (VDict d)
    = unknown_environment (VDict d) name.
Proof.
  intros Hp Hd check_rules.
  apply (validate_unknown_value check_rules (VDict dd) d [] (VStr name));
    try reflexivity; try exact Hd.
  unfold environments_of. cbn [py_get bind].
  destruct Hp as [Hp | [pd [Hp Hq]]]; rewrite Hp; cbn [py_get]; [reflexivity|].
  now rewrite Hq.
Qed.

(** An [env] that is a list or a mapping cannot be looked up: the membership
    test raises, and the event is denied with the error mark and the
    message of the [TypeError]. *)
Theorem unhashable_env_error
    (data : value) (d envs : list (string * value)) (v : value) :
  environments_of data = Ok (VDict envs) ->
  dict_get d "env" = Some v ->
  hashable v = false ->
  forall check_rules,
    validate_input_with check_rules data (VDict d)
    = validation_error (VDict d)
        (Exn TypeError ("unhashable type: '" ++ type_name v ++ "'")).
Proof.
  unfold environments_of, validate_input_with, validate_try.
  intros He Hd Hh check_rules. cbn [py_get]. rewrite bind_Ok, Hd.
  destruct (py_get data "policy" (VDict [])) as [policy|]; [|discriminate].
  cbn [bind] in He |- *. rewrite He. cbn [bind py_in]. rewrite Hh.
  reflexivity.
Qed.

(** An environment of the policy without the [rules] key makes every event
    for it a validation error, with the message of the [KeyError]; no check
    runs. *)
Theorem missing_rules_key_error
    (dd pd envs ed d : list (string * value)) (name : string) :
  dict_get dd "policy" = Some (VDict pd) ->
  dict_get pd "environments" = Some (VDict envs) ->
  dict_get envs name = Some (VDict ed) ->
  dict_get ed "rules" = None ->
  dict_get d "env" = Some (VStr name) ->
  forall check_rules,
    validate_input_with check_rules (VDict dd) (VDict d)
    = validation_error (VDict d) (Exn KeyError "'rules'").
Proof.
  intros Hp He Hn Hr Hd check_rules.
  unfold validate_input_with, validate_try.
  repeat (cbn [py_get py_getitem py_in hashable bind];
          rewrite ?Hd, ?Hp, ?He, ?Hn, ?Hr).
  reflexivity.
Qed.
End ValidatorProperties.

(** ** What the verdict depends on, and its size *)

Lemma length_append_if (c : bool) (vs : list string) (msg : string) :
  (List.length (append_if c vs msg) <= S (List.length vs))%nat.
Proof. destruct c; simpl; [rewrite length_app; simpl; lia | lia]. Qed.

Lemma NoDup_opt_app (o : option string) (l : list string) :
  (forall msg, o = Some msg -> ~ In msg l) ->
  NoDup l -> NoDup (opt o ++ l).
Proof.
  destruct o as [msg|]; simpl; [|auto].
  intros H Hl. constructor; [apply H; reflexivity | exact Hl].
Qed.

Ltac other_message H :=
  repeat (apply in_app_or in H; destruct H as [H | H];
          [ unfold opt, when in H;
            match type of H with
            | In _ (match (if ?c then _ else _) with _ => _ end) => destruct c
            end;
            [ destruct H as [H | []];
              unfold reviewers_message, ticket_message, wait_message,
                guardrail_message in H;
              cbn [String.append] in H; discriminate H
            | destruct H ]
          | ]);
  try (destruct H).

Section VerdictProperties.
Context {RE : ReModule}.

(** [_check_rules] reads sixteen parameters of the rule set and nothing
    else: two rule sets that agree on them give the same outcome for every
    event, raised exceptions included. *)
Theorem check_rules_reads_recognized_params
    (input_data : value) (r1 r2 : list (string * value)) :
  (forall k, In k recognized_params -> dict_get r1 k = dict_get r2 k) ->
  _check_rules input_data (VDict r1) = _check_rules input_data (VDict r2).
Proof.
  intros H.
  assert (Hk : Forall (fun k => dict_get r1 k = dict_get r2 k)
                      recognized_params)
    by (apply Forall_forall; exact H).
  unfold recognized_params, bool_params, int_params, str_params in Hk.
  cbn [app] in Hk.
  repeat match goal with
         | H : Forall _ (_ :: _) |- _ => inversion H; subst; clear H
         end.
  unfold _check_rules. cbn [py_get].
  repeat match goal with
         | H : dict_get r1 _ = dict_get r2 _ |- _ => rewrite H; clear H
         end.
  reflexivity.
Qed.

Lemma check_rules_reads_input_fields
    (d1 d2 : list (string * value)) (rules : value) :
  (forall f, In f input_fields -> dict_get d1 f = dict_get d2 f) ->
  _check_rules (VDict d1) rules = _check_rules (VDict d2) rules.
Proof.
  intros H.
  assert (Hk : Forall (fun f => dict_get d1 f = dict_get d2 f) input_fields)
    by (apply Forall_forall; exact H).
  unfold input_fields, bool_fields, int_fields in Hk. cbn [app] in Hk.
  repeat match goal with
         | H : Forall _ (_ :: _) |- _ => inversion H; subst; clear H
         end.
  unfold _check_rules. cbn [py_get].
  repeat match goal with
         | H : dict_get d1 _ = dict_get d2 _ |- _ => rewrite H; clear H
         end.
  reflexivity.
Qed.

(** The verdict depends on fifteen fields of the event and on nothing else:
    two events that agree on them get the same violations, verdict, error
    mark and timestamp.  A key such as [_test_name], which the benchmark
    leaves in the scenario, changes nothing. *)
Theorem verdict_reads_input_fields
    (data : value) (d1 d2 : list (string * value)) :
  (forall f, In f input_fields -> dict_get d1 f = dict_get d2 f) ->
  violations (validate_input data (VDict d1))
  = violations (validate_input data (VDict d2))
  /\ allowed (validate_input data (VDict d1))
     = allowed (validate_input data (VDict d2))
  /\ error (validate_input data (VDict d1))
     = error (validate_input data (VDict d2))
  /\ timestamp (validate_input data (VDict d1))
     = timestamp (validate_input data (VDict d2)).
Proof.
  intros H.
  assert (He : dict_get d1 "env" = dict_get d2 "env")
    by (apply H; simpl; tauto).
  unfold validate_input, validate_input_with, validate_try.
  cbn [py_get]. rewrite He, !bind_Ok.
  destruct (py_get data "policy" (VDict [])) as [policy|]; cbn [bind];
    [|auto].
  destruct (py_get policy "environments" (VDict [])) as [envs|];
    cbn [bind]; [|auto].
  destruct (py_in _ envs) as [[]|]; cbn [bind]; [|auto|auto].
  destruct (py_getitem data (VStr "policy")) as [p|]; cbn [bind]; [|auto].
  destruct (py_getitem p (VStr "environments")) as [es|]; cbn [bind]; [|auto].
  destruct (py_getitem es _) as [e|]; cbn [bind]; [|auto].
  destruct (py_getitem e (VStr "rules")) as [rules|]; cbn [bind]; [|auto].
  rewrite (check_rules_reads_input_fields d1 d2 rules H).
  destruct (_check_rules (VDict d2) rules); cbn [bind]; auto.
Qed.

(** Whatever the documents, a list returned by [_check_rules] has at most
    fourteen messages. *)
Theorem at_most_fourteen_violations
    (input_data rules : value) (vs : list string) :
  _check_rules input_data rules = Ok vs -> (List.length vs <= 14)%nat.
Proof.
  unfold _check_rules. intros H.
  repeat match goal with
         | H : bind _ _ = Ok _ |- _ =>
             apply bind_Ok_inv in H; destruct H as [? [? H]]; cbv beta zeta in H
         | H : (if ?c then _ else _) = Ok _ |- _ => destruct c
         | H : Ok _ = Ok _ |- _ => inversion H; subst; clear H
         end;
    repeat match goal with
           | |- (List.length (append_if _ _ _) <= _)%nat =>
               eapply Nat.le_trans; [apply length_append_if | apply le_n_S]
           end;
    simpl; lia.
Qed.

(** On well-typed documents no message comes twice. *)
Theorem violations_distinct (input_data rules : value) :
  well_typed_rules rules = true ->
  well_typed_input input_data = true ->
  ticket_handled rules input_data = true ->
  exists vs, _check_rules input_data rules = Ok vs /\ NoDup vs.
Proof.
  intros Hr Hi Ht. exists (evaluate rules input_data).
  split; [now apply check_rules_typed|].
  unfold evaluate, checks. cbn [flat_map]. unfold triggered. fold opt.
  unfold check_tests, check_artifact, check_release, check_reviewers,
    check_shared_infra, check_change, check_ticket, check_date, check_wait,
    check_signoff, check_emergency, check_components, check_rollback,
    check_guardrail.
  repeat (apply NoDup_opt_app;
          [ intros msg Hm Hin; apply when_Some in Hm; destruct Hm as [_ Hm];
            subst msg;
            unfold reviewers_message, ticket_message, wait_message,
              guardrail_message in Hin;
            cbn [String.append] in Hin;
            other_message Hin
          | ]).
  constructor.
Qed.
End VerdictProperties.

(** ** Thresholds and the ticket check *)

Section CheckProperties.
Context {RE : ReModule}.

(** On well-typed documents whose ticket pattern is handled, so that
    [_check_rules] returns a list, the reviewer violation is in that list
    exactly when [require_reviewers] is true and the number of approvers is
    strictly below [min_reviewers], which counts as 0 when absent: as many
    approvers as required is enough. *)
Theorem reviewer_threshold (input_data rules : value) :
  well_typed_rules rules = true ->
  well_typed_input input_data = true ->
  ticket_handled rules input_data = true ->
  exists vs,
    _check_rules input_data rules = Ok vs
    /\ (In (reviewers_message
              (number rules "min_reviewers")
              (Z.of_nat (List.length (items input_data "approvers")))) vs
        <-> flag rules "require_reviewers" = true
            /\ Z.of_nat (List.length (items input_data "approvers"))
               < number rules "min_reviewers")
    /\ ((exists required got, In (reviewers_message required got) vs)
        -> flag rules "require_reviewers" = true
           /\ Z.of_nat (List.length (items input_data "approvers"))
              < number rules "min_reviewers").
Proof.
  intros Hr Hi Hk. exists (evaluate rules input_data).
  split; [now apply check_rules_typed|].
  assert (H2 : (exists required got,
                   In (reviewers_message required got)
                      (evaluate rules input_data))
               -> flag rules "require_reviewers" = true
                  /\ Z.of_nat (List.length (items input_data "approvers"))
                     < number rules "min_reviewers").
  { intros [required [got H]]. unfold reviewers_message in H.
    cbn [String.append] in H.
    split_checks H; read_check H Hc; try discriminate H.
    apply andb_prop in Hc. destruct Hc as [Hc1 Hc2].
    apply Z.ltb_lt in Hc2. now split. }
  split; [split|exact H2].
  - intros H. apply H2. eauto.
  - intros [Hq Hlt]. apply in_evaluate. exists check_reviewers. split.
    + simpl. tauto.
    + unfold check_reviewers. apply Z.ltb_lt in Hlt. now rewrite Hq, Hlt.
Qed.

(** On well-typed documents whose ticket pattern is handled, so that
    [_check_rules] returns a list, the wait-timer violation is in that list
    exactly when [wait_timer_seconds] is positive and the elapsed time, 0
    when absent, is strictly below it: a timer of 0 or less asks for
    nothing. *)
Theorem wait_timer_threshold (input_data rules : value) :
  well_typed_rules rules = true ->
  well_typed_input input_data = true ->
  ticket_handled rules input_data = true ->
  exists vs,
    _check_rules input_data rules = Ok vs
    /\ (In (wait_message (number input_data "wait_elapsed_seconds")
                         (number rules "wait_timer_seconds")) vs
        <-> 0 < number rules "wait_timer_seconds"
            /\ number input_data "wait_elapsed_seconds"
               < number rules "wait_timer_seconds")
    /\ ((exists elapsed timer, In (wait_message elapsed timer) vs)
        -> 0 < number rules "wait_timer_seconds"
           /\ number input_data "wait_elapsed_seconds"
              < number rules "wait_timer_seconds").
Proof.
  intros Hr Hi Hk. exists (evaluate rules input_data).
  split; [now apply check_rules_typed|].
  assert (H2 : (exists elapsed timer,
                   In (wait_message elapsed timer) (evaluate rules input_data))
               -> 0 < number rules "wait_timer_seconds"
                  /\ number input_data "wait_elapsed_seconds"
                     < number rules "wait_timer_seconds").
  { intros [elapsed [timer H]]. unfold wait_message in H.
    cbn [String.append] in H.
    split_checks H; read_check H Hc; try discriminate H.
    apply andb_prop in Hc. destruct Hc as [Hc1 Hc2].
    apply Z.gtb_lt in Hc1. apply Z.ltb_lt in Hc2. now split. }
  split; [split|exact H2].
  - intros H. apply H2. eauto.
  - intros [Hp Hlt]. apply in_evaluate. exists check_wait. split.
    + simpl. tauto.
    + unfold check_wait. apply Z.gtb_lt in Hp. apply Z.ltb_lt in Hlt.
      now rewrite Hp, Hlt.
Qed.

(** On well-typed documents the ticket violation is produced exactly when
    [require_ticket] is true and [_valid_ticket], applied to the ticket id
    and the pattern of the rule set, both empty when absent, returns
    false. *)
Theorem ticket_violation (input_data rules : value) :
  well_typed_rules rules = true ->
  well_typed_input input_data = true ->
  ticket_handled rules input_data = true ->
  exists vs,
    _check_rules input_data rules = Ok vs
    /\ (In (ticket_message (text rules "ticket_pattern")) vs
        <-> flag rules "require_ticket" = true
            /\ _valid_ticket (VStr (text input_data "ticket_id"))
                             (VStr (text rules "ticket_pattern"))
               = Ok false).
Proof.
  intros Hr Hi Hk. exists (evaluate rules input_data).
  split; [now apply check_rules_typed|].
  assert (Hv : flag rules "require_ticket" = true ->
               _valid_ticket (VStr (text input_data "ticket_id"))
                             (VStr (text rules "ticket_pattern"))
               = Ok (validTicket (text input_data "ticket_id")
                                 (text rules "ticket_pattern"))).
  { intros Hq. apply valid_ticket_typed. unfold ticket_handled in Hk.
    rewrite Hq in Hk. cbn [negb orb] in Hk. exact Hk. }
  split.
  - intros H. unfold ticket_message in H. cbn [String.append] in H.
    split_checks H; read_check H Hc; try discriminate H.
    apply andb_prop in Hc. destruct Hc as [Hc1 Hc2]. split; [exact Hc1|].
    rewrite (Hv Hc1). apply negb_true_iff in Hc2. now rewrite Hc2.
  - intros [Hq Hf]. apply in_evaluate. exists check_ticket. split.
    + simpl. tauto.
    + rewrite (Hv Hq) in Hf. injection Hf as Hf'.
      unfold check_ticket. rewrite Hq, Hf'. reflexivity.
Qed.

(** With [require_ticket] true, an event without a ticket id, or with an
    empty one, always gets the ticket violation; the pattern is not even
    compiled, so this holds for every pattern. *)
Theorem missing_ticket_is_violation (input_data rules : value) :
  well_typed_rules rules = true ->
  well_typed_input input_data = true ->
  flag rules "require_ticket" = true ->
  text input_data "ticket_id" = "" ->
  exists vs,
    _check_rules input_data rules = Ok vs
    /\ In (ticket_message (text rules "ticket_pattern")) vs.
Proof.
  intros Hr Hi Hq Hid. exists (evaluate rules input_data). split.
  - apply check_rules_typed; auto. unfold ticket_handled.
    rewrite Hid. cbn. now rewrite orb_true_r.
  - apply in_evaluate. exists check_ticket. split.
    + simpl. tauto.
    + unfold check_ticket, validTicket. now rewrite Hq, Hid.
Qed.
End CheckProperties.

(** ** The runners *)

Lemma dict_get_set_same (d : list (string * value)) (k : string) (v : value) :
  dict_get (dict_set d k v) k = Some v.
Proof.
  induction d as [|[k' w] d IH]; simpl.
  - now rewrite String.eqb_refl.
  - destruct (String.eqb k k') eqn:E; simpl; rewrite E; [reflexivity | exact IH].
Qed.

Lemma dict_get_set_other (d : list (string * value)) (k f : string) (v : value) :
  String.eqb f k = false -> dict_get (dict_set d k v) f = dict_get d f.
Proof.
  intros Hf. induction d as [|[k' w] d IH]; simpl.
  - now rewrite Hf.
  - destruct (String.eqb k k') eqn:E; simpl.
    + apply String.eqb_eq in E. subst k'. now rewrite Hf.
    + now rewrite IH.
Qed.

Lemma dict_remove_set (d : list (string * value)) (k : string) (v : value) :
  dict_remove (dict_set d k v) k = dict_remove d k.
Proof.
  unfold dict_remove. induction d as [|[k' w] d IH]; simpl.
  - now rewrite String.eqb_refl.
  - destruct (String.eqb k k') eqn:E; simpl; rewrite E; simpl;
      [reflexivity | now rewrite IH].
Qed.

Lemma dict_remove_absent (d : list (string * value)) (k : string) :
  dict_get d k = None -> dict_remove d k = d.
Proof.
  unfold dict_remove. induction d as [|[k' w] d IH]; simpl; [reflexivity|].
  destruct (String.eqb k k'); [discriminate|]. simpl. intros H.
  now rewrite IH.
Qed.

Lemma dict_get_remove_same (d : list (string * value)) (k : string) :
  dict_get (dict_remove d k) k = None.
Proof.
  unfold dict_remove. induction d as [|[k' w] d IH]; simpl; [reflexivity|].
  destruct (String.eqb k k') eqn:E; simpl; [exact IH | now rewrite E].
Qed.

Lemma load_files_scenarios (files : list (string * option value)) (s : value) :
  In s (snd (load_files files))
  <-> exists stem d,
        In (stem, Some (VDict d)) files
        /\ s = VDict (dict_set d "_test_name" (VStr stem)).
Proof.
  induction files as [|[stem content] files IH]; simpl.
  - split; [contradiction | intros [? [? [[] _]]]].
  - destruct (load_files files) as [out scenarios] eqn:E. simpl in IH.
    assert (Hrest : In s scenarios ->
                    exists stem0 d,
                      ((stem, content) = (stem0, Some (VDict d))
                       \/ In (stem0, Some (VDict d)) files)
                      /\ s = VDict (dict_set d "_test_name" (VStr stem0))).
    { intros H. apply IH in H. destruct H as [st [d [H1 H2]]]. eauto. }
    destruct content as [[| | | | |d]|]; simpl;
      try (split; [exact Hrest
                  | intros [st [d' [[H|H] H2]]];
                    [discriminate H | apply IH; eauto]]).
    split.
    + intros [H|H]; [|auto]. exists stem, d. auto.
    + intros [st [d' [[H|H] H2]]].
      * inversion H; subst. now left.
      * right. apply IH. eauto.
Qed.

Lemma load_files_count (files : list (string * option value)) :
  (List.length (snd (load_files files)) + List.length (fst (load_files files))
   = List.length files)%nat.
Proof.
  induction files as [|[stem content] files IH]; simpl; [reflexivity|].
  destruct (load_files files) as [out scenarios]. simpl in IH.
  destruct content as [[| | | | |d]|]; simpl; lia.
Qed.

Lemma filter_all_length {A : Type} (f : A -> bool) (l : list A) :
  List.length (filter f l) = List.length l <-> forallb f l = true.
Proof.
  induction l as [|a l IH]; simpl; [tauto|].
  pose proof (filter_length_le f l) as Hle.
  destruct (f a); simpl.
  - rewrite <- IH. lia.
  - split; [lia | discriminate].
Qed.

Lemma Ok_pair_inj {A B : Type} (a a' : A) (b b' : B) :
  Ok (a, b) = Ok (a', b') -> a = a' /\ b = b'.
Proof. intros H. inversion H. auto. Qed.

Section RunnerProperties.
Context {RE : ReModule}.

(** [load_test_scenarios] returns one scenario for each file whose content
    is a JSON object, the object with [_test_name] set to the stem of the
    file, and nothing else: files that cannot be read and files holding
    another JSON value are skipped, each with a warning line. *)
Theorem load_test_scenarios_spec (fs : Files) :
  (forall s,
      In s (snd (load_test_scenarios fs))
      <-> exists files stem d,
            test_inputs fs = Some files
            /\ In (stem, Some (VDict d)) files
            /\ s = VDict (dict_set d "_test_name" (VStr stem)))
  /\ (List.length (snd (load_test_scenarios fs))
      + List.length (fst (load_test_scenarios fs))
      = match test_inputs fs with
        | Some files => List.length files
        | None => 0
        end)%nat.
Proof.
  unfold load_test_scenarios. destruct (test_inputs fs) as [files|]; split.
  - intros s. rewrite load_files_scenarios. split.
    + intros [stem [d H]]. exists files, stem, d. tauto.
    + intros [files' [stem [d [H1 H2]]]]. inversion H1; subst. eauto.
  - apply load_files_count.
  - intros s. simpl. split; [contradiction | intros [? [? [? [H _]]]]].
    discriminate H.
  - reflexivity.
Qed.

(** The name set by the loader is the name popped by the runners, and what
    they validate is the JSON object of the file without that key: the
    object itself when it had no [_test_name] of its own. *)
Theorem pop_after_load
    (d : list (string * value)) (stem : string) (default : value) :
  exists s,
    py_setitem (VDict d) "_test_name" (VStr stem) = Ok s
    /\ py_pop s "_test_name" default
       = Ok (VStr stem, VDict (dict_remove d "_test_name"))
    /\ dict_get (dict_remove d "_test_name") "_test_name" = None
    /\ (dict_get d "_test_name" = None -> dict_remove d "_test_name" = d).
Proof.
  exists (VDict (dict_set d "_test_name" (VStr stem))).
  split; [reflexivity|]. split; [|split].
  - unfold py_pop. now rewrite dict_get_set_same, dict_remove_set.
  - apply dict_get_remove_same.
  - apply dict_remove_absent.
Qed.

Lemma main_scenario_dict (data : value) (d : list (string * value)) :
  exists out,
    main_scenario data (VDict d) = Ok (out, scenario_passes data (VDict d))
    /\ forall n, ~ In (AllowedCount n) out.
Proof.
  unfold main_scenario, scenario_passes. cbn [py_pop bind fst snd].
  set (r := validate_input data (VDict (dict_remove d "_test_name"))).
  assert (Hinv : allowed r = no_violations r).
  { unfold r, validate_input, validate_input_with.
    destruct (validate_try _check_rules data _) as [r'|e] eqn:H.
    - exact (validate_try_invariant _ _ _ _ H).
    - reflexivity. }
  destruct (allowed r) eqn:Ha.
  - rewrite <- Hinv. eexists. split; [reflexivity|].
    intros n [H|[H|[]]]; discriminate H.
  - eexists. split; [reflexivity|].
    intros n [H|[H|[H|H]]]; try discriminate H.
    unfold first_violations in H. apply in_app_or in H. destruct H as [H|H].
    + apply in_map_iff in H. destruct H as [? [H _]]. discriminate H.
    + destruct (_ >? 5); [destruct H as [H|[]]; discriminate H | destruct H].
Qed.

Lemma main_loop_dicts (data : value) (scenarios : list value) :
  Forall (fun s => exists d, s = VDict d) scenarios ->
  forall passed failed,
  exists out,
    main_loop data scenarios passed failed
    = Ok (out,
          (passed
           + Z.of_nat (List.length (filter (scenario_passes data) scenarios)),
           failed
           + (Z.of_nat (List.length scenarios)
              - Z.of_nat
                  (List.length (filter (scenario_passes data) scenarios)))))
    /\ (forall n, ~ In (AllowedCount n) out)
    /\ (forall p f, ~ In (Summary p f) out).
Proof.
  induction 1 as [|s scenarios [d Hd] Hall IH]; intros passed failed.
  - exists []. simpl. split; [|split; intros; tauto].
    do 3 f_equal; lia.
  - subst s. cbn [main_loop].
    destruct (main_scenario_dict data d) as [out [Hs Hn]].
    rewrite Hs. cbn [bind]. cbn [filter List.length].
    assert (Hsum : forall p f, ~ In (Summary p f) out).
    { intros p f Hin. revert Hs. unfold main_scenario.
      cbn [py_pop bind fst snd].
      destruct (allowed _); intros Hs; inversion Hs; subst; clear Hs.
      - destruct Hin as [H|[H|H]]; try discriminate H.
        destruct (no_violations _); [destruct H | destruct H as [H|[]]];
          discriminate H.
      - destruct Hin as [H|[H|[H|H]]]; try discriminate H.
        unfold first_violations in H. apply in_app_or in H.
        destruct H as [H|H].
        + apply in_map_iff in H. destruct H as [? [H _]]. discriminate H.
        + destruct (_ >? 5); [destruct H as [H|[]]; discriminate H
                             | destruct H]. }
    destruct (scenario_passes data (VDict d)).
    + destruct (IH (passed + 1) failed) as [out' [Hl [Hn' Hs']]].
      rewrite Hl. cbn [bind fst snd]. exists (out ++ out')%list.
      split; [|split].
      * cbn [List.length]. do 3 f_equal; lia.
      * intros n Hin. apply in_app_or in Hin.
        destruct Hin as [Hin|Hin]; [exact (Hn n Hin) | exact (Hn' n Hin)].
      * intros p f Hin. apply in_app_or in Hin.
        destruct Hin as [Hin|Hin]; [exact (Hsum p f Hin) | exact (Hs' p f Hin)].
    + destruct (IH passed (failed + 1)) as [out' [Hl [Hn' Hs']]].
      rewrite Hl. cbn [bind fst snd]. exists (out ++ out')%list.
      split; [|split].
      * cbn [List.length]. do 3 f_equal; lia.
      * intros n Hin. apply in_app_or in Hin.
        destruct Hin as [Hin|Hin]; [exact (Hn n Hin) | exact (Hn' n Hin)].
      * intros p f Hin. apply in_app_or in Hin.
        destruct Hin as [Hin|Hin]; [exact (Hsum p f Hin) | exact (Hs' p f Hin)].
Qed.

Lemma loaded_scenarios_dicts (fs : Files) :
  Forall (fun s => exists d, s = VDict d) (snd (load_test_scenarios fs)).
Proof.
  apply Forall_forall. intros s Hs. unfold load_test_scenarios in Hs.
  destruct (test_inputs fs) as [files|]; [|destruct Hs].
  apply load_files_scenarios in Hs. destruct Hs as [stem [d [_ Hs]]]. eauto.
Qed.

(** With printing taken to succeed, [main] returns, 0 or 1. *)
Lemma main_exit (fs : Files) :
  exists out code,
    main fs = Ok (out, code)
    /\ (code = 0 \/ code = 1)
    /\ (code = 0
        <-> wasm_file fs <> Some false
            /\ exists data,
                 policy_file fs = Some (Some data)
                 /\ snd (load_test_scenarios fs) <> []
                 /\ forallb (scenario_passes data)
                            (snd (load_test_scenarios fs)) = true).
Proof.
  unfold main, main_validator.
  pose proof (loaded_scenarios_dicts fs) as Hd.
  destruct (load_test_scenarios fs) as [out' scenarios]. cbn [snd] in *.
  destruct (policy_file fs) as [[data|]|].
  2,3: eexists; eexists; split; [reflexivity|]; split; [now right|];
       split; [discriminate | intros [_ [? [H _]]]; discriminate H].
  destruct (wasm_file fs) as [[]|].
  2: eexists; eexists; split; [reflexivity|]; split; [now right|];
     split; [discriminate | intros [H _]; now contradiction H].
  all: destruct scenarios as [|s scenarios];
    [ eexists; eexists; split; [reflexivity|]; split; [now right|];
      split; [discriminate | intros [_ [? [_ [H _]]]]; now contradiction H]
    | destruct (main_loop_dicts data (s :: scenarios) Hd 0 0)
        as [out [Hl _]];
      rewrite Hl; cbn [bind fst snd];
      set (n := Z.of_nat (List.length (s :: scenarios))) in *;
      set (c := Z.of_nat
                  (List.length (filter (scenario_passes data)
                                       (s :: scenarios)))) in *;
      assert (Hc : 0 + (n - c) = 0
                   <-> forallb (scenario_passes data) (s :: scenarios) = true)
        by (rewrite <- filter_all_length; unfold n, c; lia);
      destruct (0 + (n - c) =? 0) eqn:E;
      eexists; eexists; (split; [reflexivity|]);
      [ apply Z.eqb_eq in E; split; [now left|];
        split; [intros _; split; [discriminate|];
                exists data; split; [reflexivity|];
                split; [discriminate | now apply Hc]
               | reflexivity]
      | apply Z.eqb_neq in E; split; [now right|];
        split; [discriminate
               | intros [_ [data' [Hp [_ Hf]]]]; inversion Hp; subst data';
                 apply Hc in Hf; contradiction] ] ].
Qed.

(** When a run of [main] of [validate_policy.py] in which every [print]
    succeeds returns, it returns 0 or 1, and it returns 0 exactly when the
    WASM file is absent or loads, the policy file is read, at least one
    scenario is loaded and every scenario is allowed: an empty or missing
    [test-inputs] directory, or one denied scenario, gives 1. *)
Theorem main_exit_status (fs : Files) (out : list line) (code : Z) :
  main fs = Ok (out, code) ->
  (code = 0 \/ code = 1)
  /\ (code = 0
      <-> wasm_file fs <> Some false
          /\ exists data,
               policy_file fs = Some (Some data)
               /\ snd (load_test_scenarios fs) <> []
               /\ forallb (scenario_passes data)
                          (snd (load_test_scenarios fs)) = true).
Proof.
  intros Hrun. destruct (main_exit fs) as [out' [code' [Hm H]]].
  rewrite Hm in Hrun. apply Ok_pair_inj in Hrun.
  destruct Hrun as [_ <-]. exact H.
Qed.

(** In the summary that [main] prints, [passed] and [failed] add up to the
    number of scenarios loaded and [passed] counts the allowed ones; the
    exit status is 0 exactly when [failed] is 0. *)
Theorem main_summary (fs : Files) (out : list line) (code passed failed : Z) :
  main fs = Ok (out, code) ->
  In (Summary passed failed) out ->
  (exists data,
      policy_file fs = Some (Some data)
      /\ passed
         = Z.of_nat (List.length (filter (scenario_passes data)
                                         (snd (load_test_scenarios fs)))))
  /\ passed + failed = Z.of_nat (List.length (snd (load_test_scenarios fs)))
  /\ (code = 0 <-> failed = 0).
Proof.
  unfold main, main_validator.
  pose proof (loaded_scenarios_dicts fs) as Hd.
  assert (Hfail : forall st, In (Summary passed failed)
                                (map LoadFailed st) -> False).
  { intros st H. apply in_map_iff in H. destruct H as [? [H _]].
    discriminate H. }
  assert (Hout : exists st, fst (load_test_scenarios fs) = map LoadFailed st).
  { unfold load_test_scenarios. destruct (test_inputs fs) as [files|];
      [|exists []; reflexivity].
    induction files as [|[stem content] files [st IH]].
    - exists []. reflexivity.
    - simpl. destruct (load_files files) as [o sc]. simpl in IH. subst o.
      destruct content as [[| | | | |d]|]; simpl;
        solve [exists st; reflexivity | exists (stem :: st); reflexivity]. }
  destruct Hout as [st Hst].
  destruct (load_test_scenarios fs) as [out' scenarios]. cbn [fst snd] in *.
  subst out'.
  destruct (policy_file fs) as [[data|]|].
  2,3: intros H Hin; inversion H; subst; clear H;
       apply in_app_or in Hin; destruct Hin as [Hin|[Hin|[]]];
       [destruct (wasm_file fs); [destruct Hin | destruct Hin as [Hin|[]]];
        discriminate Hin
       | discriminate Hin].
  assert (Hgen : forall pre,
             (forall p f, ~ In (Summary p f) pre) ->
             match scenarios with
             | [] => Ok ((pre ++ map LoadFailed st ++ [NoScenarios])%list, 1)
             | _ :: _ =>
                 r <- main_loop data scenarios 0 0 ;;
                 (let (passed0, failed0) := snd r in
                  Ok ((pre ++ map LoadFailed st
                         ++ Running (Z.of_nat (List.length scenarios))
                         :: fst r
                         ++ Summary passed0 failed0
                         :: (if failed0 =? 0 then [AllPassed]
                             else [SomeFailed failed0]))%list,
                      if failed0 =? 0 then 0 else 1))
             end = Ok (out, code) ->
             In (Summary passed failed) out ->
             (exists data0,
                 Some (Some data) = Some (Some data0)
                 /\ passed
                    = Z.of_nat
                        (List.length (filter (scenario_passes data0)
                                             scenarios)))
             /\ passed + failed = Z.of_nat (List.length scenarios)
             /\ (code = 0 <-> failed = 0)).
  { intros pre Hpre.
    destruct scenarios as [|s scenarios].
    - intros H Hin. inversion H; subst; clear H.
      apply in_app_or in Hin.
      destruct Hin as [Hin|Hin]; [exfalso; exact (Hpre _ _ Hin)|].
      apply in_app_or in Hin. destruct Hin as [Hin|[Hin|[]]];
        [exfalso; exact (Hfail _ Hin) | discriminate Hin].
    - destruct (main_loop_dicts data (s :: scenarios) Hd 0 0)
        as [lines [Hl [_ Hs]]].
      rewrite Hl. cbn [bind fst snd]. intros H Hin.
      apply Ok_pair_inj in H. destruct H as [Hout Hcode]. subst out code.
      apply in_app_or in Hin.
      destruct Hin as [Hin|Hin]; [exfalso; exact (Hpre _ _ Hin)|].
      apply in_app_or in Hin.
      destruct Hin as [Hin|[Hin|Hin]];
        [exfalso; exact (Hfail _ Hin) | discriminate Hin |].
      apply in_app_or in Hin. destruct Hin as [Hin|[Hin|Hin]];
        [exfalso; exact (Hs _ _ Hin) | |].
      + set (n := Z.of_nat (List.length (s :: scenarios))) in *.
        set (c := Z.of_nat
                    (List.length (filter (scenario_passes data)
                                         (s :: scenarios)))) in *.
        assert (Hp : passed = 0 + c) by (injection Hin; auto).
        assert (Hf : failed = 0 + (n - c)) by (injection Hin; auto).
        clear Hin. split; [|split].
        * exists data. split; [reflexivity | lia].
        * clearbody n c. lia.
        * clearbody n c. rewrite Hf. destruct (0 + (n - c) =? 0) eqn:E;
            [apply Z.eqb_eq in E | apply Z.eqb_neq in E];
            split; intro; lia.
      + destruct (_ =? 0); destruct Hin as [Hin|[]]; discriminate Hin. }
  destruct (wasm_file fs) as [[]|].
  - apply (Hgen [WasmLoaded]). intros p f [H|[]]. discriminate H.
  - intros H Hin. inversion H; subst; clear H.
    destruct Hin as [Hin|[Hin|[]]]; discriminate Hin.
  - apply (Hgen [WasmMissing]). intros p f [H|[]]. discriminate H.
Qed.

(** [main] never prints the number of violations of an allowed scenario:
    the branch that would is dead, an allowed result has no violation. *)
Theorem allowed_count_never_printed
    (fs : Files) (out : list line) (code : Z) (n : Z) :
  main fs = Ok (out, code) -> ~ In (AllowedCount n) out.
Proof.
  unfold main, main_validator.
  pose proof (loaded_scenarios_dicts fs) as Hd.
  assert (Hout : exists st, fst (load_test_scenarios fs) = map LoadFailed st).
  { unfold load_test_scenarios. destruct (test_inputs fs) as [files|];
      [|exists []; reflexivity].
    induction files as [|[stem content] files [st IH]].
    - exists []. reflexivity.
    - simpl. destruct (load_files files) as [o sc]. simpl in IH. subst o.
      destruct content as [[| | | | |d]|]; simpl;
        solve [exists st; reflexivity | exists (stem :: st); reflexivity]. }
  destruct Hout as [st Hst].
  destruct (load_test_scenarios fs) as [out' scenarios]. cbn [fst snd] in *.
  subst out'.
  assert (Hfail : In (AllowedCount n) (map LoadFailed st) -> False).
  { intros H. apply in_map_iff in H. destruct H as [? [H _]].
    discriminate H. }
  destruct (policy_file fs) as [[data|]|];
    destruct (wasm_file fs) as [[]|];
    try (intros H Hin; inversion H; subst; clear H;
         repeat (destruct Hin as [Hin|Hin]; [discriminate Hin|]);
         now destruct Hin).
  all: destruct scenarios as [|s scenarios];
    [ intros H Hin; inversion H; subst; clear H;
      cbn [app] in Hin;
      repeat (destruct Hin as [Hin|Hin]; [discriminate Hin|]);
      apply in_app_or in Hin; destruct Hin as [Hin|[Hin|[]]];
      [now apply Hfail | discriminate Hin]
    | destruct (main_loop_dicts data (s :: scenarios) Hd 0 0)
        as [lines [Hl [Hn _]]];
      rewrite Hl; cbn [bind fst snd]; intros H Hin;
      inversion H; subst; clear H;
      cbn [app] in Hin;
      repeat (destruct Hin as [Hin|Hin]; [discriminate Hin|]);
      apply in_app_or in Hin; destruct Hin as [Hin|[Hin|Hin]];
      [ now apply Hfail | discriminate Hin |];
      apply in_app_or in Hin; destruct Hin as [Hin|[Hin|Hin]];
      [ now apply Hn in Hin | discriminate Hin
      | destruct (_ =? 0); destruct Hin as [Hin|[]]; discriminate Hin ] ].
Qed.
End RunnerProperties.

Lemma filter_map_length {A : Type} (f : A -> bool) (l : list A) :
  List.length (filter (fun b : bool => b) (map f l))
  = List.length (filter f l).
Proof.
  induction l as [|a l IH]; simpl; [reflexivity|].
  destruct (f a); simpl; now rewrite IH.
Qed.

Section ComprehensiveProperties.
Context {RE : ReModule}.

Lemma comprehensive_loop_dicts (data : value) (scenarios : list value) :
  Forall (fun s => exists d, s = VDict d) scenarios ->
  exists out results,
    comprehensive_loop data scenarios = Ok (out, results)
    /\ map snd results = map (scenario_passes data) scenarios
    /\ (forall p t, ~ In (SuccessRate p t) out).
Proof.
  induction 1 as [|s scenarios [d Hd] Hall [out [results [IH [Hm Hs]]]]].
  - exists [], []. simpl. repeat split; intros; tauto.
  - subst s. cbn [comprehensive_loop]. unfold comprehensive_scenario.
    cbn [py_pop bind fst snd]. rewrite IH. cbn [bind fst snd].
    eexists. eexists. split; [reflexivity|]. split.
    + cbn [map snd]. rewrite Hm. unfold scenario_passes at 2.
      cbn [py_pop snd]. reflexivity.
    + intros p t Hin. destruct Hin as [Hin|Hin]; [discriminate Hin|].
      apply in_app_or in Hin.
      destruct Hin as [Hin|Hin]; [|exact (Hs p t Hin)].
      destruct (allowed _).
      * destruct Hin as [Hin|[]]. discriminate Hin.
      * destruct Hin as [Hin|[Hin|Hin]]; try discriminate Hin.
        clear - Hin. revert Hin. generalize 1.
        induction (violations _) as [|v vs IHv]; intros i Hin;
          [destruct Hin|].
        destruct Hin as [Hin|Hin]; [discriminate Hin | eauto].
Qed.

Lemma results_count (data : value) (scenarios : list value)
    (results : list (string * bool)) :
  map snd results = map (scenario_passes data) scenarios ->
  List.length (filter (fun t => snd t) results)
  = List.length (filter (scenario_passes data) scenarios)
  /\ List.length results = List.length scenarios.
Proof.
  intros H. split.
  - rewrite <- (filter_map_length (scenario_passes data)), <- H.
    now rewrite filter_map_length.
  - rewrite <- (length_map snd results), H. apply length_map.
Qed.

(** With printing taken to succeed, [run_comprehensive_tests] returns, 0 or
    1. *)
Lemma comprehensive_exit (fs : Files) :
  exists out code,
    run_comprehensive_tests fs = Ok (out, code)
    /\ (code = 0 \/ code = 1)
    /\ (code = 0
        <-> exists data,
              policy_file fs = Some (Some data)
              /\ snd (load_test_scenarios fs) <> []
              /\ forallb (scenario_passes data)
                         (snd (load_test_scenarios fs)) = true).
Proof.
  unfold run_comprehensive_tests.
  pose proof (loaded_scenarios_dicts fs) as Hd.
  destruct (load_test_scenarios fs) as [out' scenarios]. cbn [snd] in *.
  destruct scenarios as [|s scenarios].
  { eexists; eexists; split; [reflexivity|]; split; [now right|].
    split; [discriminate | intros [? [_ [H _]]]; now contradiction H]. }
  destruct (policy_file fs) as [[data|]|].
  2,3: eexists; eexists; split; [reflexivity|]; split; [now right|];
       split; [discriminate | intros [? [H _]]; discriminate H].
  destruct (comprehensive_loop_dicts data (s :: scenarios) Hd)
    as [out [results [Hl [Hm _]]]].
  rewrite Hl. cbn [bind fst snd].
  destruct (results_count data (s :: scenarios) results Hm) as [Hc Hn].
  rewrite Hc, Hn.
  set (n := Z.of_nat (List.length (s :: scenarios))) in *.
  set (c := Z.of_nat
              (List.length (filter (scenario_passes data)
                                   (s :: scenarios)))) in *.
  assert (Hf : n - c = 0
               <-> forallb (scenario_passes data) (s :: scenarios) = true)
    by (rewrite <- filter_all_length; unfold n, c; lia).
  destruct (n - c =? 0) eqn:E; eexists; eexists; (split; [reflexivity|]).
  - apply Z.eqb_eq in E. split; [now left|].
    split; [|reflexivity]. intros _. exists data.
    split; [reflexivity|]. split; [discriminate | now apply Hf].
  - apply Z.eqb_neq in E. split; [now right|].
    split; [discriminate|]. intros [data' [Hp [_ Hall]]].
    inversion Hp; subst data'. apply Hf in Hall. contradiction.
Qed.

(** When a run of [run_comprehensive_tests] in which every [print] succeeds
    returns, it returns 0 or 1, and it returns 0 exactly when the policy
    file is read, at least one scenario is loaded and every scenario is
    allowed. *)
Theorem comprehensive_exit_status
    (fs : Files) (out : list line) (code : Z) :
  run_comprehensive_tests fs = Ok (out, code) ->
  (code = 0 \/ code = 1)
  /\ (code = 0
      <-> exists data,
            policy_file fs = Some (Some data)
            /\ snd (load_test_scenarios fs) <> []
            /\ forallb (scenario_passes data)
                       (snd (load_test_scenarios fs)) = true).
Proof.
  intros Hrun. destruct (comprehensive_exit fs) as [out' [code' [Hm H]]].
  rewrite Hm in Hrun. apply Ok_pair_inj in Hrun.
  destruct Hrun as [_ <-]. exact H.
Qed.

(** The two runners agree: unless a WASM file is present and fails to load,
    [main] of [validate_policy.py] and [run_comprehensive_tests] return the
    same exit status on the same files. *)
Theorem runners_agree (fs : Files) :
  wasm_file fs <> Some false ->
  exists out1 out2 code,
    main fs = Ok (out1, code)
    /\ run_comprehensive_tests fs = Ok (out2, code).
Proof.
  intros Hw.
  destruct (main_exit fs) as [out1 [c1 [H1 [D1 I1]]]].
  destruct (comprehensive_exit fs) as [out2 [c2 [H2 [D2 I2]]]].
  exists out1, out2, c1. split; [exact H1|].
  replace c1 with c2; [exact H2|].
  destruct D1 as [D1|D1], D2 as [D2|D2]; subst; try reflexivity.
  - exfalso. assert (H : (1 : Z) = 0); [|discriminate H].
    apply I2. apply I1. reflexivity.
  - exfalso. assert (H : (1 : Z) = 0); [|discriminate H].
    apply I1. split; [exact Hw|]. apply I2. reflexivity.
Qed.

(** The success rate that [run_comprehensive_tests] prints is a quotient
    by a positive number of results, of which the passed ones are a part:
    the division is never by zero. *)
Theorem success_rate_defined
    (fs : Files) (out : list line) (code passed total : Z) :
  run_comprehensive_tests fs = Ok (out, code) ->
  In (SuccessRate passed total) out ->
  0 < total /\ 0 <= passed <= total.
Proof.
  unfold run_comprehensive_tests.
  pose proof (loaded_scenarios_dicts fs) as Hd.
  assert (Hout : exists st, fst (load_test_scenarios fs) = map LoadFailed st).
  { unfold load_test_scenarios. destruct (test_inputs fs) as [files|];
      [|exists []; reflexivity].
    induction files as [|[stem content] files [st IH]].
    - exists []. reflexivity.
    - simpl. destruct (load_files files) as [o sc]. simpl in IH. subst o.
      destruct content as [[| | | | |d]|]; simpl;
        solve [exists st; reflexivity | exists (stem :: st); reflexivity]. }
  destruct Hout as [st Hst].
  destruct (load_test_scenarios fs) as [out' scenarios]. cbn [fst snd] in *.
  subst out'.
  assert (Hfail : In (SuccessRate passed total) (map LoadFailed st) -> False).
  { intros H. apply in_map_iff in H. destruct H as [? [H _]].
    discriminate H. }
  destruct scenarios as [|s scenarios].
  { intros H Hin. inversion H; subst; clear H.
    apply in_app_or in Hin. destruct Hin as [Hin|[Hin|[]]];
      [now apply Hfail in Hin | discriminate Hin]. }
  destruct (policy_file fs) as [[data|]|].
  2,3: intros H Hin; inversion H; subst; clear H;
       apply in_app_or in Hin; destruct Hin as [Hin|[Hin|[]]];
       [now apply Hfail in Hin | discriminate Hin].
  destruct (comprehensive_loop_dicts data (s :: scenarios) Hd)
    as [lines [results [Hl [Hm Hs]]]].
  rewrite Hl. cbn [bind fst snd]. intros H Hin.
  inversion H; subst; clear H.
  apply in_app_or in Hin. destruct Hin as [Hin|Hin];
    [now apply Hfail in Hin|].
  apply in_app_or in Hin. destruct Hin as [Hin|[Hin|[Hin|Hin]]];
    [now apply Hs in Hin | discriminate Hin | |].
  - inversion Hin; subst; clear Hin.
    destruct (results_count data (s :: scenarios) results Hm) as [_ Hn].
    pose proof (filter_length_le (fun t : string * bool => snd t) results).
    rewrite Hn in *. cbn [List.length] in *. lia.
  - destruct (_ >? 0); [|destruct Hin].
    destruct Hin as [Hin|Hin]; [discriminate Hin|].
    apply in_map_iff in Hin. destruct Hin as [? [Hin _]]. discriminate Hin.
Qed.

(** Of the violations of a denied scenario [main] shows the first ones, five
    at most and in their order, and counts the others exactly in one more
    line; with five violations or fewer there is no such line. *)
Theorem first_violations_spec (vs : list string) :
  exists shown rest,
    vs = (shown ++ rest)%list
    /\ (List.length shown <= 5)%nat
    /\ (rest <> [] -> List.length shown = 5%nat)
    /\ first_violations vs
       = (map Bullet shown
            ++ match rest with
               | [] => []
               | _ :: _ => [More (Z.of_nat (List.length rest))]
               end)%list.
Proof.
  exists (firstn 5 vs), (skipn 5 vs).
  split; [symmetry; apply firstn_skipn|].
  split; [apply firstn_le_length|].
  pose proof (length_skipn 5 vs) as Hs.
  pose proof (length_firstn 5 vs) as Hf.
  split.
  - intros Hr. destruct (skipn 5 vs) eqn:E; [contradiction|].
    simpl in Hs. lia.
  - unfold first_violations. f_equal.
    destruct (Z.of_nat (List.length vs) >? 5) eqn:E.
    + apply Z.gtb_lt in E. destruct (skipn 5 vs) eqn:E'; simpl in Hs; [lia|].
      do 2 f_equal. simpl. lia.
    + destruct (skipn 5 vs) eqn:E'; [reflexivity|]. simpl in Hs.
      assert (Hlt : 5 < Z.of_nat (List.length vs)) by lia.
      apply Z.gtb_lt in Hlt. congruence.
Qed.
End ComprehensiveProperties.

(** ** The further properties on the sample documents *)

Lemma allowed_means_checks_passed_witness :
  allowed (@validate_input MiniRe.engine sample_policy compliant_event) = true
  /\ violations (@validate_input MiniRe.engine sample_policy compliant_event)
     = []
  /\ error (@validate_input MiniRe.engine sample_policy compliant_event)
     = None.
Proof.
  assert (H : allowed (@validate_input MiniRe.engine sample_policy
                         compliant_event) = true)
    by (vm_compute; reflexivity).
  split; [exact H|].
  destruct (@allowed_means_checks_passed MiniRe.engine sample_policy
              compliant_event H) as [H1 [H2 _]].
  split; [exact H1 | exact H2].
Defined.

Lemma resolved_environment_verdict_witness :
  @validate_input MiniRe.engine sample_policy emergency_event
  = {| allowed := false;
       violations := @evaluate MiniRe.engine prod_rules emergency_event;
       input := emergency_event;
       timestamp := Some "2025-01-18T16:00:00Z";
       error := None |}.
Proof.
  apply (@resolved_environment_verdict MiniRe.engine
           [("policy", VDict [("environments", VDict prod_environments)])]
           [("environments", VDict prod_environments)]
           prod_environments [("rules", prod_rules)]
           [("env", VStr "prod");
            ("checks", VDict [("tests", VBool true)]);
            ("artifact_signed", VBool true);
            ("approvers", VList [VStr "a"]);
            ("shared_infra", VBool true);
            ("ticket_id", VStr "TICKET-1");
            ("wait_elapsed_seconds", VInt 300);
            ("is_emergency", VBool true);
            ("signed_off", VBool false);
            ("deployments_today", VInt 4)]
           "prod" prod_rules); reflexivity.
Defined.

Lemma non_string_env_unknown_witness :
  @validate_input MiniRe.engine sample_policy (VDict [("env", VNone)])
  = unknown_environment (VDict [("env", VNone)]) "None".
Proof.
  exact (non_string_env_unknown sample_policy [("env", VNone)]
           prod_environments VNone eq_refl eq_refl eq_refl eq_refl
           (@_check_rules MiniRe.engine)).
Defined.

Lemma no_policy_no_environment_witness :
  @validate_input MiniRe.engine (VDict []) emergency_event
  = unknown_environment emergency_event "prod".
Proof.
  apply (no_policy_no_environment []
           [("env", VStr "prod");
            ("checks", VDict [("tests", VBool true)]);
            ("artifact_signed", VBool true);
            ("approvers", VList [VStr "a"]);
            ("shared_infra", VBool true);
            ("ticket_id", VStr "TICKET-1");
            ("wait_elapsed_seconds", VInt 300);
            ("is_emergency", VBool true);
            ("signed_off", VBool false);
            ("deployments_today", VInt 4)] "prod");
    [left; reflexivity | reflexivity].
Defined.

Lemma unhashable_env_error_witness :
  @validate_input MiniRe.engine sample_policy
    (VDict [("env", VList [VStr "prod"])])
  = validation_error (VDict [("env", VList [VStr "prod"])])
      (Exn TypeError "unhashable type: 'list'").
Proof.
  exact (unhashable_env_error sample_policy [("env", VList [VStr "prod"])]
           prod_environments (VList [VStr "prod"]) eq_refl eq_refl eq_refl
           (@_check_rules MiniRe.engine)).
Defined.

Lemma missing_rules_key_error_witness :
  @validate_input MiniRe.engine
    (VDict [("policy",
             VDict [("environments",
                     VDict [("prod", VDict [("owner", VStr "ops")])])])])
    (VDict [("env", VStr "prod"); ("ticket_id", VStr "x")])
  = validation_error (VDict [("env", VStr "prod"); ("ticket_id", VStr "x")])
      (Exn KeyError "'rules'").
Proof.
  exact (missing_rules_key_error
           [("policy",
             VDict [("environments",
                     VDict [("prod", VDict [("owner", VStr "ops")])])])]
           [("environments", VDict [("prod", VDict [("owner", VStr "ops")])])]
           [("prod", VDict [("owner", VStr "ops")])]
           [("owner", VStr "ops")]
           [("env", VStr "prod"); ("ticket_id", VStr "x")] "prod"
           eq_refl eq_refl eq_refl eq_refl eq_refl
           (@_check_rules MiniRe.engine)).
Defined.

Lemma check_rules_reads_recognized_params_witness :
  @_check_rules MiniRe.engine emergency_event
    (VDict [("owner", VStr "platform"); ("require_ticket", VBool true)])
  = @_check_rules MiniRe.engine emergency_event
      (VDict [("require_ticket", VBool true); ("comment", VInt 7)]).
Proof.
  apply (@check_rules_reads_recognized_params MiniRe.engine emergency_event
           [("owner", VStr "platform"); ("require_ticket", VBool true)]
           [("require_ticket", VBool true); ("comment", VInt 7)]).
  intros k Hin. unfold recognized_params in Hin. simpl in Hin.
  repeat (destruct Hin as [<- | Hin]; [reflexivity|]).
  contradiction.
Defined.

Lemma verdict_reads_input_fields_witness :
  violations
    (@validate_input MiniRe.engine sample_policy
       (VDict [("_test_name", VStr "late"); ("env", VStr "prod");
               ("deployments_today", VInt 4)]))
  = violations
      (@validate_input MiniRe.engine sample_policy
         (VDict [("env", VStr "prod"); ("deployments_today", VInt 4);
                 ("note", VNone)])).
Proof.
  apply (@verdict_reads_input_fields MiniRe.engine sample_policy
           [("_test_name", VStr "late"); ("env", VStr "prod");
            ("deployments_today", VInt 4)]
           [("env", VStr "prod"); ("deployments_today", VInt 4);
            ("note", VNone)]).
  intros f Hin. unfold input_fields in Hin. simpl in Hin.
  repeat (destruct Hin as [<- | Hin]; [reflexivity|]).
  contradiction.
Defined.

Lemma at_most_fourteen_violations_witness :
  @_check_rules MiniRe.engine emergency_event prod_rules
  = Ok (@evaluate MiniRe.engine prod_rules emergency_event)
  /\ (List.length (@evaluate MiniRe.engine prod_rules emergency_event)
      <= 14)%nat.
Proof.
  assert (H : @_check_rules MiniRe.engine emergency_event prod_rules
              = Ok (@evaluate MiniRe.engine prod_rules emergency_event))
    by (vm_compute; reflexivity).
  split; [exact H|].
  exact (@at_most_fourteen_violations MiniRe.engine emergency_event prod_rules
           _ H).
Defined.

Lemma violations_distinct_witness :
  exists vs,
    @_check_rules MiniRe.engine emergency_event prod_rules = Ok vs
    /\ NoDup vs.
Proof.
  apply (@violations_distinct MiniRe.engine emergency_event prod_rules);
    reflexivity.
Defined.

Lemma reviewer_threshold_witness :
  number prod_rules "min_reviewers" = 2
  /\ items emergency_event "approvers" = [VStr "a"]
  /\ exists vs,
       @_check_rules MiniRe.engine emergency_event prod_rules = Ok vs
       /\ In (reviewers_message 2 1) vs.
Proof.
  split; [reflexivity | split; [reflexivity|]].
  destruct (@reviewer_threshold MiniRe.engine emergency_event prod_rules
              eq_refl eq_refl eq_refl) as [vs [H1 [H2 _]]].
  exists vs. split; [exact H1|].
  apply H2. split; reflexivity.
Defined.

Lemma wait_timer_threshold_witness :
  number prod_rules "wait_timer_seconds" = 300
  /\ number emergency_event "wait_elapsed_seconds" = 300
  /\ exists vs,
       @_check_rules MiniRe.engine emergency_event prod_rules = Ok vs
       /\ ~ In (wait_message 300 300) vs.
Proof.
  split; [reflexivity | split; [reflexivity|]].
  destruct (@wait_timer_threshold MiniRe.engine emergency_event prod_rules
              eq_refl eq_refl eq_refl) as [vs [H1 [H2 _]]].
  exists vs. split; [exact H1|].
  intros H. apply H2 in H. destruct H as [_ H]. vm_compute in H.
  discriminate H.
Defined.

Lemma ticket_violation_witness :
  exists vs,
    @_check_rules MiniRe.engine emergency_event prod_rules = Ok vs
    /\ In (ticket_message "^JIRA-\d+$") vs.
Proof.
  destruct (@ticket_violation MiniRe.engine emergency_event prod_rules
              eq_refl eq_refl eq_refl) as [vs [H1 H2]].
  exists vs. split; [exact H1|].
  apply H2. split; [reflexivity | vm_compute; reflexivity].
Defined.

Lemma missing_ticket_is_violation_witness :
  exists vs,
    @_check_rules MiniRe.engine staging_event overflow_rules = Ok vs
    /\ In (ticket_message "a{4294967295}") vs.
Proof.
  apply (@missing_ticket_is_violation MiniRe.engine staging_event
           overflow_rules); reflexivity.
Defined.

Lemma pop_after_load_witness :
  exists s,
    py_setitem (VDict [("env", VStr "staging"); ("deployments_today", VInt 4)])
      "_test_name" (VStr "late") = Ok s
    /\ py_pop s "_test_name" (VStr "unknown")
       = Ok (VStr "late", staging_event).
Proof.
  destruct (pop_after_load
              [("env", VStr "staging"); ("deployments_today", VInt 4)]
              "late" (VStr "unknown")) as [s [H1 [H2 [_ H4]]]].
  exists s. split; [exact H1|].
  rewrite (H4 eq_refl) in H2. exact H2.
Defined.

Lemma main_exit_status_witness :
  exists out,
    @main MiniRe.engine compliant_files = Ok (out, 0)
    /\ wasm_file compliant_files <> Some false
    /\ exists data,
         policy_file compliant_files = Some (Some data)
         /\ snd (load_test_scenarios compliant_files) <> []
         /\ forallb (@scenario_passes MiniRe.engine data)
                    (snd (load_test_scenarios compliant_files)) = true.
Proof.
  assert (Hrun : exists out,
             @main MiniRe.engine compliant_files = Ok (out, 0))
    by (eexists; lazy; reflexivity).
  destruct Hrun as [out Hrun]. exists out. split; [exact Hrun|].
  destruct (@main_exit_status MiniRe.engine compliant_files out 0 Hrun)
    as [_ [H _]].
  exact (H eq_refl).
Defined.

Lemma main_summary_witness :
  exists out,
    @main MiniRe.engine sample_files = Ok (out, 1)
    /\ In (Summary 1 1) out
    /\ 1 + 1
       = Z.of_nat (List.length (snd (load_test_scenarios sample_files))).
Proof.
  eexists. split; [lazy; reflexivity|].
  match goal with
  | |- In ?l ?o /\ _ =>
      assert (Hin : In l o)
        by (repeat (try (left; reflexivity); right))
  end.
  split; [exact Hin|].
  eapply (@main_summary MiniRe.engine sample_files _ 1 1 1);
    [lazy; reflexivity | exact Hin].
Defined.

Lemma allowed_count_never_printed_witness :
  exists out,
    @main MiniRe.engine sample_files = Ok (out, 1)
    /\ ~ In (AllowedCount 0) out.
Proof.
  eexists. split; [lazy; reflexivity|].
  eapply (@allowed_count_never_printed MiniRe.engine sample_files _ 1 0).
  lazy. reflexivity.
Defined.

Lemma comprehensive_exit_status_witness :
  exists out,
    @run_comprehensive_tests MiniRe.engine compliant_files = Ok (out, 0)
    /\ exists data,
         policy_file compliant_files = Some (Some data)
         /\ snd (load_test_scenarios compliant_files) <> []
         /\ forallb (@scenario_passes MiniRe.engine data)
                    (snd (load_test_scenarios compliant_files)) = true.
Proof.
  assert (Hrun : exists out,
             @run_comprehensive_tests MiniRe.engine compliant_files
             = Ok (out, 0))
    by (eexists; lazy; reflexivity).
  destruct Hrun as [out Hrun]. exists out. split; [exact Hrun|].
  destruct (@comprehensive_exit_status MiniRe.engine compliant_files out 0
              Hrun) as [_ [H _]].
  exact (H eq_refl).
Defined.

Lemma runners_agree_witness :
  wasm_file sample_files <> Some false
  /\ exists out1 out2 code,
       @main MiniRe.engine sample_files = Ok (out1, code)
       /\ @run_comprehensive_tests MiniRe.engine sample_files
          = Ok (out2, code).
Proof.
  assert (H : wasm_file sample_files <> Some false) by discriminate.
  split; [exact H|].
  exact (@runners_agree MiniRe.engine sample_files H).
Defined.

Lemma success_rate_defined_witness :
  exists out,
    @run_comprehensive_tests MiniRe.engine sample_files = Ok (out, 1)
    /\ In (SuccessRate 1 2) out
    /\ 0 < 2.
Proof.
  eexists. split; [lazy; reflexivity|].
  match goal with
  | |- In ?l ?o /\ _ =>
      assert (Hin : In l o)
        by (repeat (try (left; reflexivity); right))
  end.
  split; [exact Hin|].
  eapply (@success_rate_defined MiniRe.engine sample_files _ 1 1 2);
    [lazy; reflexivity | exact Hin].
Defined.

Lemma first_violations_spec_witness :
  exists shown rest,
    ["a"; "b"; "c"; "d"; "e"; "f"; "g"] = (shown ++ rest)%list
    /\ List.length shown = 5%nat
    /\ first_violations ["a"; "b"; "c"; "d"; "e"; "f"; "g"]
       = (map Bullet shown ++ [More 2])%list.
Proof.
  destruct (first_violations_spec ["a"; "b"; "c"; "d"; "e"; "f"; "g"])
    as [shown [rest [H1 [H2 [H3 H4]]]]].
  exists shown, rest. split; [exact H1|].
  assert (Hr : rest <> []).
  { intros ->. rewrite app_nil_r in H1. subst shown. simpl in H2. lia. }
  split; [exact (H3 Hr)|].
  rewrite H4. f_equal.
  pose proof (f_equal (@List.length string) H1) as Hl.
  rewrite length_app, (H3 Hr) in Hl. simpl in Hl.
  destruct rest as [|r1 [|r2 [|r3 rest]]]; simpl in Hl; try lia.
  reflexivity.
Defined.
